(** * Infrastructure stacks of the SplitItUI and GitAuthEngine packages

    The repository is straight-line TypeScript that calls a
    cloud-infrastructure SDK.  Every constructor of the source is embedded
    as a program of a small state-and-exception monad whose only effect is
    "call the SDK": the world is the log of the calls attempted so far, and
    the SDK itself (its validation, the moment it throws) is a parameter
    [sdk] of the development, never fixed by this file. *)

From stdpp Require Import base strings list gmap.
From Stdlib Require Import ZArith Lia.

Open Scope string_scope.
Open Scope list_scope.

(** ** Values handed to the SDK *)

(** A construct object is identified by its path in the construct tree:
    the ids from the root (the app, path [[]]) down to the construct. *)
Definition Path := list string.

(** JavaScript values as far as the source uses them.  [VRef p] is the
    construct object at path [p]; [VAttr p a] is the attribute [a] read from
    that object ([contentDelivery.distributionDomainName] and the like, a
    token resolved by the SDK at synthesis); [VEnum t m] is the member [m] of
    the SDK enumeration [t]; [VNew c args] is a plain (non construct) SDK
    object built by [new c(args)] and [VStatic f args] the result of the
    static factory [f(args)]. *)
#[warnings="-register-all"]
Inductive Value : Type :=
| VUndefined
| VStr (s : string)
| VNum (z : Z)
| VBool (b : bool)
| VEnum (ty member : string)
| VList (l : list Value)
| VObj (fields : list (string * Value))
| VRef (p : Path)
| VAttr (p : Path) (attr : string)
| VNew (cls : string) (args : list Value)
| VStatic (fn : string) (args : list Value).

(** An object literal: its fields in source order. *)
Definition Props := list (string * Value).

(** [o.k] on an object literal; [VUndefined] when the key is absent. *)
Fixpoint get (k : string) (o : Props) : Value :=
  match o with
  | [] => VUndefined
  | (k', v) :: o' => if String.eqb k k' then v else get k o'
  end.

Definition field (k : string) (v : Value) : Value :=
  match v with
  | VObj o => get k o
  | _ => VUndefined
  end.

(** [cdk.RemovalPolicy.DESTROY], the one member the source writes. *)
Definition RemovalPolicy := "cdk.RemovalPolicy".
Definition DESTROY := VEnum RemovalPolicy "DESTROY".

(** [dynamodb.AttributeType]. *)
Inductive AttributeType : Type := BINARY | NUMBER | STRING.

Definition AttributeType_value (t : AttributeType) : Value :=
  VEnum "dynamodb.AttributeType"
    match t with BINARY => "BINARY" | NUMBER => "NUMBER" | STRING => "STRING" end.

(** ** Calls into the SDK *)

Inductive SdkCall : Type :=
| Super (base : string) (scope : Path) (id : string) (props : option Props)
    (** [super(scope, id, props)] of a class extending [base] *)
| NewConstruct (cls : string) (scope : Path) (id : string) (props : Props)
    (** [new cls(scope, id, props)] *)
| NewApp
    (** [new cdk.App()] *)
| NewObject (cls : string) (args : list Value)
    (** [new cls(args)] of a class that is not a construct *)
| StaticCall (fn : string) (args : list Value)
    (** [fn(args)] of a static factory *)
| MethodCall (target : Path) (method : string) (args : list Value)
    (** [target.method(args)] *).

(** JavaScript exceptions: the runtime's [TypeError] and whatever the SDK
    throws. *)
Inductive JsError : Type :=
| TypeError (msg : string)
| SdkError (msg : string).

(** The world threaded through a run: every SDK call attempted, oldest
    first. *)
Definition World := list SdkCall.

Inductive Outcome (A : Type) : Type :=
| Ok (a : A) (w : World)
| Throw (e : JsError) (w : World).
Arguments Ok {A} a w.
Arguments Throw {A} e w.

Definition M (A : Type) : Type := World -> Outcome A.

Definition ret {A} (a : A) : M A := fun w => Ok a w.

Definition bind {A B} (m : M A) (k : A -> M B) : M B :=
  fun w => match m w with
           | Ok a w' => k a w'
           | Throw e w' => Throw e w'
           end.

Notation "'let*' x ':=' m 'in' k" := (bind m (fun x => k))
  (at level 10, x name, m at level 100, k at level 200).

(** [throw] and [try_catch] are what JavaScript offers for errors of one's
    own; the source uses neither (only the runtime throws, see [construct]). *)
Definition throw {A} (e : JsError) : M A := fun w => Throw e w.

Definition try_catch {A} (m : M A) (handler : JsError -> M A) : M A :=
  fun w => match m w with
           | Ok a w' => Ok a w'
           | Throw e w' => handler e w'
           end.

(** The SDK as the source sees it: [sdk c w] is [Some e] when the call [c],
    attempted in world [w], throws [e], and [None] when it returns. *)
Definition Sdk := SdkCall -> World -> option JsError.

(** The SDK that accepts every call. *)
Definition permissive : Sdk := fun _ _ => None.

(** An SDK that refuses every bucket. *)
Definition refuse_bucket : Sdk := fun c _ =>
  match c with
  | NewConstruct cls _ _ _ =>
      if String.eqb cls "s3.Bucket" then Some (SdkError "bucket name in use")
      else None
  | _ => None
  end.

(** ** Property interfaces and objects of lib/GitAuthEngine-cdk-stack.ts

    Each TypeScript interface is a record; a field holding a construct
    object holds its path.  The [cdk.StackProps] fields that four of the
    interfaces inherit are optional and never read by the source; they are
    left out. *)

Module ApiGatewayConstructProps.
Record t := {
  restApiName : string;
  apigatewayName : string;
  allowedOrigins : list string;
  lambdaFunction : Path;
  description : option string }.
End ApiGatewayConstructProps.

Module AuthLambdaConstructProps.
Record t := {
  functionName : string;
  handler : string;
  codePath : string;
  vpc : Path;
  securityGroups : list Path;
  environment : list (string * Value) }.
End AuthLambdaConstructProps.

Module DynamoDBConstructProps.
Record key := { name : string; type : AttributeType }.
Record t := {
  tableName : string;
  partitionKey : key }.
End DynamoDBConstructProps.

Module CognitoConstructProps.
Record t := {
  userPoolName : string;
  clientName : string }.
End CognitoConstructProps.

Module ElastiCacheConstructProps.
Record t := {
  vpc : Path;
  securityGroup : Path;
  cacheClusterId : string }.
End ElastiCacheConstructProps.

Module CloudWatchConstructProps.
Record t := { logGroupName : string }.
End CloudWatchConstructProps.

(** The objects the wrapper classes build: [this] and the public fields. *)
Record ApiGatewayConstruct_obj := { apiGateway_this : Path; apiGateway : Path }.
Record AuthLambdaConstruct_obj := { authLambda_this : Path; lambdaFunction : Path }.
Record DynamoDBConstruct_obj := { dynamoDb_this : Path; table : Path }.
Record CognitoConstruct_obj :=
  { cognito_this : Path; userPool : Path; userPoolClient : Path }.
Record ElastiCacheConstruct_obj := { elastiCache_this : Path; cacheCluster : Path }.
Record CloudWatchConstruct_obj := { cloudWatch_this : Path; logGroup : Path }.

Section Stacks.

Variable sdk : Sdk.

(** One SDK call: logged, then accepted or thrown by the SDK. *)
Definition call (c : SdkCall) : M unit :=
  fun w => match sdk c w with
           | Some e => Throw e (w ++ [c])
           | None => Ok tt (w ++ [c])
           end.

Definition super (base : string) (scope : Path) (id : string)
    (props : option Props) : M Path :=
  let* _ := call (Super base scope id props) in ret (scope ++ [id]).

Definition new_construct (cls : string) (scope : Path) (id : string)
    (props : Props) : M Path :=
  let* _ := call (NewConstruct cls scope id props) in ret (scope ++ [id]).

Definition new_App : M Path := let* _ := call NewApp in ret [].

Definition new_object (cls : string) (args : list Value) : M Value :=
  let* _ := call (NewObject cls args) in ret (VNew cls args).

Definition static_call (fn : string) (args : list Value) : M Value :=
  let* _ := call (StaticCall fn args) in ret (VStatic fn args).

Definition method_call (target : Path) (method : string)
    (args : list Value) : M unit :=
  call (MethodCall target method args).

(** ** lib/SplitItUI-cdk-stack.ts *)

(** A stack class, as a value: its constructor. *)
Definition StackClass := Path -> string -> option Props -> M Path.

Definition WebAppStack : StackClass := fun scope id props =>
  let* this := super "cdk.Stack" scope id props in
  let* webAppS3 := new_construct "s3.Bucket" this "WebAppS3"
    [ ("bucketName", VStr "my-webapp-bucket");
      ("removalPolicy", DESTROY) ] in
  let* origin := new_object "cloudfront.S3Origin" [VRef webAppS3] in
  let* contentDelivery := new_construct "cloudfront.Distribution" this
    "ContentDelivery"
    [ ("defaultBehavior", VObj [ ("origin", origin) ]) ] in
  let* _ := new_construct "cdk.CfnOutput" this "WebsiteURL"
    [ ("value", VAttr contentDelivery "distributionDomainName") ] in
  ret this.

(** The names the module exports: one [export class], no [export default]. *)
Definition SplitItUI_cdk_stack : gmap string StackClass :=
  {[ "WebAppStack" := WebAppStack ]}.

(** ** lib/GitAuthEngine-cdk-stack.ts *)

Definition ApiGatewayConstruct (scope : Path) (id : string)
    (props : ApiGatewayConstructProps.t) : M ApiGatewayConstruct_obj :=
  let* this := super "Construct" scope id None in
  let* integration := new_object "apigateway.LambdaIntegration"
    [VRef (ApiGatewayConstructProps.lambdaFunction props)] in
  let* apiGateway := new_construct "apigateway.RestApi" this
    (ApiGatewayConstructProps.apigatewayName props)
    [ ("restApiName", VStr (ApiGatewayConstructProps.restApiName props));
      ("defaultCorsPreflightOptions", VObj
         [ ("allowHeaders", VList [ VStr "Content-Type"; VStr "X-Amz-Date";
                                    VStr "Authorization"; VStr "X-Api-Key" ]);
           ("allowMethods", VList [ VStr "POST" ]);
           ("allowCredentials", VBool true);
           ("allowOrigins",
            VList (map VStr (ApiGatewayConstructProps.allowedOrigins props))) ]);
      ("description",
       VStr (match ApiGatewayConstructProps.description props with
             | Some d => d
             | None => ""
             end));
      ("endpointExportName", VStr "ServiceRequestAPI");
      ("deployOptions", VObj
         [ ("stageName", VStr "prod");
           ("loggingLevel", VEnum "apigateway.MethodLoggingLevel" "INFO");
           ("dataTraceEnabled", VBool true);
           ("metricsEnabled", VBool true) ]);
      ("cloudWatchRole", VBool true);
      ("cloudWatchRoleRemovalPolicy", DESTROY);
      ("defaultIntegration", integration);
      ("failOnWarnings", VBool true);
      ("retainDeployments", VBool false);
      ("defaultMethodOptions", VObj
         [ ("methodResponses", VList [ VObj [ ("statusCode", VStr "200") ] ]);
           ("operationName", VStr "ServiceRequest");
           ("requestParameters", VObj
              [ ("method.request.header.Authorization", VBool true);
                ("method.request.header.Content-Type", VBool true);
                ("method.request.header.Custom-Header", VBool true);
                ("method.request.querystring.myParam", VBool true) ]);
           ("authorizationType", VEnum "apigateway.AuthorizationType" "NONE") ]) ] in
  ret {| apiGateway_this := this; apiGateway := apiGateway |}.

Definition AuthLambdaConstruct (scope : Path) (id : string)
    (props : AuthLambdaConstructProps.t) : M AuthLambdaConstruct_obj :=
  let* this := super "Construct" scope id None in
  let* code := static_call "lambda.Code.fromAsset"
    [VStr (AuthLambdaConstructProps.codePath props)] in
  let* lambdaFunction := new_construct "lambda.Function" this
    (AuthLambdaConstructProps.functionName props)
    [ ("runtime", VEnum "lambda.Runtime" "PYTHON_3_9");
      ("handler", VStr (AuthLambdaConstructProps.handler props));
      ("code", code);
      ("vpc", VRef (AuthLambdaConstructProps.vpc props));
      ("securityGroups",
       VList (map VRef (AuthLambdaConstructProps.securityGroups props)));
      ("environment", VObj (AuthLambdaConstructProps.environment props)) ] in
  let* statement := new_object "iam.PolicyStatement"
    [ VObj [ ("actions", VList [ VStr "dynamodb:*"; VStr "cognito-idp:*";
                                 VStr "elasticache:*"; VStr "logs:*" ]);
             ("resources", VList [ VStr "*" ]) ] ] in
  let* _ := method_call lambdaFunction "addToRolePolicy" [statement] in
  ret {| authLambda_this := this; lambdaFunction := lambdaFunction |}.

Definition DynamoDBConstruct (scope : Path) (id : string)
    (props : DynamoDBConstructProps.t) : M DynamoDBConstruct_obj :=
  let* this := super "Construct" scope id None in
  let* table := new_construct "dynamodb.Table" this
    (DynamoDBConstructProps.tableName props)
    [ ("tableName", VStr (DynamoDBConstructProps.tableName props));
      ("partitionKey", VObj
         [ ("name", VStr (DynamoDBConstructProps.name
                            (DynamoDBConstructProps.partitionKey props)));
           ("type", AttributeType_value
                      (DynamoDBConstructProps.type
                         (DynamoDBConstructProps.partitionKey props))) ]);
      ("removalPolicy", DESTROY) ] in
  ret {| dynamoDb_this := this; table := table |}.

Definition CognitoConstruct (scope : Path) (id : string)
    (props : CognitoConstructProps.t) : M CognitoConstruct_obj :=
  let* this := super "Construct" scope id None in
  let* userPool := new_construct "cognito.UserPool" this
    (CognitoConstructProps.userPoolName props)
    [ ("userPoolName", VStr (CognitoConstructProps.userPoolName props));
      ("selfSignUpEnabled", VBool true) ] in
  let* userPoolClient := new_construct "cognito.UserPoolClient" this
    (CognitoConstructProps.clientName props)
    [ ("userPool", VRef userPool) ] in
  ret {| cognito_this := this; userPool := userPool;
         userPoolClient := userPoolClient |}.

Definition ElastiCacheConstruct (scope : Path) (id : string)
    (props : ElastiCacheConstructProps.t) : M ElastiCacheConstruct_obj :=
  let* this := super "Construct" scope id None in
  let* cacheCluster := new_construct "elasticache.CfnCacheCluster" this
    (ElastiCacheConstructProps.cacheClusterId props)
    [ ("vpcSecurityGroupIds",
       VList [ VAttr (ElastiCacheConstructProps.securityGroup props)
                 "securityGroupId" ]);
      ("cacheNodeType", VStr "cache.t2.micro");
      ("engine", VStr "redis");
      ("numCacheNodes", VNum 1);
      ("clusterName", VStr (ElastiCacheConstructProps.cacheClusterId props)) ] in
  ret {| elastiCache_this := this; cacheCluster := cacheCluster |}.

Definition CloudWatchConstruct (scope : Path) (id : string)
    (props : CloudWatchConstructProps.t) : M CloudWatchConstruct_obj :=
  let* this := super "Construct" scope id None in
  let* logGroup := new_construct "logs.LogGroup" this
    (CloudWatchConstructProps.logGroupName props)
    [ ("logGroupName", VStr (CloudWatchConstructProps.logGroupName props));
      ("retention", VEnum "logs.RetentionDays" "ONE_MONTH");
      ("removalPolicy", DESTROY) ] in
  ret {| cloudWatch_this := this; logGroup := logGroup |}.

Definition MyStack : StackClass := fun scope id props =>
  let* this := super "cdk.Stack" scope id props in
  let* vpc := new_construct "ec2.Vpc" this "Vpc"
    [ ("maxAzs", VNum 3); ("natGateways", VNum 1) ] in
  let* securityGroup := new_construct "ec2.SecurityGroup" this "SecurityGroup"
    [ ("vpc", VRef vpc); ("allowAllOutbound", VBool true) ] in
  let* dynamoDb := DynamoDBConstruct this "DynamoDBConstruct"
    {| DynamoDBConstructProps.tableName := "MyTable";
       DynamoDBConstructProps.partitionKey :=
         {| DynamoDBConstructProps.name := "ID";
            DynamoDBConstructProps.type := STRING |} |} in
  let* cognitoUserPool := CognitoConstruct this "CognitoConstruct"
    {| CognitoConstructProps.userPoolName := "MyUserPool";
       CognitoConstructProps.clientName := "MyUserPoolClient" |} in
  let* elastiCacheCluster := ElastiCacheConstruct this "ElastiCacheConstruct"
    {| ElastiCacheConstructProps.vpc := vpc;
       ElastiCacheConstructProps.securityGroup := securityGroup;
       ElastiCacheConstructProps.cacheClusterId := "MyCacheCluster" |} in
  let* cloudWatchLogGroup := CloudWatchConstruct this "CloudWatchConstruct"
    {| CloudWatchConstructProps.logGroupName := "MyLogGroup" |} in
  let* authLambda := AuthLambdaConstruct this "AuthLambdaConstruct"
    {| AuthLambdaConstructProps.functionName := "AuthLambdaFunction";
       AuthLambdaConstructProps.handler := "index.handler";
       AuthLambdaConstructProps.codePath := "path/to/your/code";
       AuthLambdaConstructProps.vpc := vpc;
       AuthLambdaConstructProps.securityGroups := [securityGroup];
       AuthLambdaConstructProps.environment :=
         [ ("DYNAMODB_TABLE", VAttr (table dynamoDb) "tableName");
           ("USER_POOL_ID", VAttr (userPool cognitoUserPool) "userPoolId");
           ("CACHE_CLUSTER_ID", VAttr (cacheCluster elastiCacheCluster) "ref");
           ("LOG_GROUP_NAME", VAttr (logGroup cloudWatchLogGroup) "logGroupName") ] |} in
  let* _ := ApiGatewayConstruct this "ApiGatewayConstruct"
    {| ApiGatewayConstructProps.restApiName := "MyApiGateway";
       ApiGatewayConstructProps.apigatewayName := "MyApiGatewayName";
       ApiGatewayConstructProps.allowedOrigins := ["*"];
       ApiGatewayConstructProps.lambdaFunction := lambdaFunction authLambda;
       ApiGatewayConstructProps.description := None |} in
  ret this.

(** The three statements that close the file: the GitAuthEngine entry
    point. *)
Definition GitAuthEngine_main : M unit :=
  let* app := new_App in
  let* _ := MyStack app "MyStack" None in
  method_call app "synth" [].

(** ** Imports, and the two files that import the SplitItUI stack module *)

(** [import { name } from m] and [import name from m]: the binding is the
    export of that name, [undefined] (here [None]) when there is none. *)
Definition import_named (m : gmap string StackClass) (name : string)
    : option StackClass := m !! name.

Definition import_default (m : gmap string StackClass) : option StackClass :=
  m !! "default".

(** [new binding(scope, id, props)]: the runtime throws a [TypeError] when
    the binding is [undefined]. *)
Definition construct (binding : option StackClass) (name : string)
    : StackClass := fun scope id props =>
  match binding with
  | Some cls => cls scope id props
  | None => throw (TypeError (name ++ " is not a constructor")%string)
  end.

(** bin/SplitItUI-cdk.ts, run against the stack module [lib]. *)
Definition SplitItUI_cdk_bin (lib : gmap string StackClass) : M Path :=
  let cdk_Stack := import_named lib "cdk_Stack" in
  let* app := new_App in
  let* cdk_package := construct cdk_Stack "cdk_Stack" app "CdkStack" (Some []) in
  ret cdk_package.

(** The test file, up to [// THEN]: the stack whose template is asserted
    on. *)
Definition test_stack (lib : gmap string StackClass) : M Path :=
  let cdk_Stack := import_default lib in
  let* app := new_App in
  let* stack := construct cdk_Stack "cdk_Stack" app "MyTestStack" None in
  ret stack.

End Stacks.

(** ** Reading a log of calls *)

Definition final_world {A} (o : Outcome A) : World :=
  match o with
  | Ok _ w => w
  | Throw _ w => w
  end.

(** The calls a program makes, from the empty world, when the SDK refuses
    none of them. *)
Definition calls_of {A} (m : Sdk -> M A) : list SdkCall :=
  final_world (m permissive []).

(** The property bags given to the constructs of class [cls], oldest
    first. *)
Definition props_of (cls : string) (cs : list SdkCall) : list Props :=
  flat_map (fun c => match c with
                     | NewConstruct cls' _ _ props =>
                         if String.eqb cls' cls then [props] else []
                     | _ => []
                     end) cs.

(** The scopes in which constructs of class [cls] were created. *)
Definition scopes_of (cls : string) (cs : list SdkCall) : list Path :=
  flat_map (fun c => match c with
                     | NewConstruct cls' scope _ _ =>
                         if String.eqb cls' cls then [scope] else []
                     | _ => []
                     end) cs.

(** The paths of the constructs of class [cls]. *)
Definition paths_of (cls : string) (cs : list SdkCall) : list Path :=
  flat_map (fun c => match c with
                     | NewConstruct cls' scope id _ =>
                         if String.eqb cls' cls then [scope ++ [id]] else []
                     | _ => []
                     end) cs.

(** The ids of the constructs of class [cls]. *)
Definition ids_of (cls : string) (cs : list SdkCall) : list string :=
  flat_map (fun c => match c with
                     | NewConstruct cls' _ id _ =>
                         if String.eqb cls' cls then [id] else []
                     | _ => []
                     end) cs.

(** The property [key] of each construct of class [cls], and the field
    [sub] of that property. *)
Definition prop (cls key : string) (cs : list SdkCall) : list Value :=
  map (get key) (props_of cls cs).

Definition subprop (cls key sub : string) (cs : list SdkCall) : list Value :=
  map (field sub) (prop cls key cs).

(** The position, in a log, of the first construct of class [cls]. *)
Fixpoint position (cls : string) (cs : list SdkCall) : option nat :=
  match cs with
  | [] => None
  | c :: cs' =>
      match c with
      | NewConstruct cls' _ _ _ =>
          if String.eqb cls' cls then Some 0 else option_map S (position cls cs')
      | _ => option_map S (position cls cs')
      end
  end.

(** The scopes opened by [super] calls of classes extending [base]. *)
Definition supers_of (base : string) (cs : list SdkCall) : list Path :=
  flat_map (fun c => match c with
                     | Super base' scope id _ =>
                         if String.eqb base' base then [scope ++ [id]] else []
                     | _ => []
                     end) cs.

(** The arguments of the calls of [method], with their targets. *)
Definition method_calls (method : string) (cs : list SdkCall)
    : list (Path * list Value) :=
  flat_map (fun c => match c with
                     | MethodCall target method' args =>
                         if String.eqb method' method then [(target, args)]
                         else []
                     | _ => []
                     end) cs.

Definition is_super (c : SdkCall) : bool :=
  match c with
  | Super _ _ _ _ => true
  | _ => false
  end.

(** What a constructor does after its [super] call. *)
Definition own_calls (cs : list SdkCall) : list SdkCall :=
  List.filter (fun c => negb (is_super c)) cs.

(** The kind of a call and the keys of its property bag, without the
    values. *)
Definition shape (c : SdkCall) : string * list string :=
  match c with
  | Super base _ _ _ => ("super " ++ base, [])%string
  | NewConstruct cls _ _ props => ("new " ++ cls, map fst props)%string
  | NewApp => ("new cdk.App", [])
  | NewObject cls args =>
      (("new " ++ cls)%string,
       flat_map (fun v => match v with VObj o => map fst o | _ => [] end) args)
  | StaticCall fn _ => (fn, [])
  | MethodCall _ method _ => (("." ++ method)%string, [])
  end.

(** Every member of the enumeration [ty] that occurs in a value, at any
    depth. *)
Fixpoint enum_members (ty : string) (v : Value) : list string :=
  match v with
  | VEnum t m => if String.eqb t ty then [m] else []
  | VList l => flat_map (enum_members ty) l
  | VObj o => flat_map (fun kv => enum_members ty (snd kv)) o
  | VNew _ args => flat_map (enum_members ty) args
  | VStatic _ args => flat_map (enum_members ty) args
  | _ => []
  end.

(** The removal policies given to constructs: for each construct, its class
    and every [cdk.RemovalPolicy] member its property bag holds, with the
    top-level key it is found under. *)
Definition removal_policies (cs : list SdkCall)
    : list (string * string * string) :=
  flat_map (fun c => match c with
                     | NewConstruct cls _ _ props =>
                         flat_map (fun kv =>
                           map (fun m => (cls, fst kv, m))
                               (enum_members RemovalPolicy (snd kv))) props
                     | _ => []
                     end) cs.

(** ** Straight-line scripts

    [run_script sdk cs a] attempts the calls [cs] in order, stops with the
    SDK's error at the first one the SDK refuses, and returns [a] when all
    were accepted. *)
Fixpoint run_script (sdk : Sdk) (cs : list SdkCall) {A} (a : A) : M A :=
  fun w =>
    match cs with
    | [] => Ok a w
    | c :: cs' =>
        match sdk c w with
        | Some e => Throw e (w ++ [c])
        | None => run_script sdk cs' a (w ++ [c])
        end
    end.

(** [m] is the straight-line script [cs] returning [a]: no branch, no
    handler, no error of its own. *)
Definition straight (sdk : Sdk) {A} (m : M A) (cs : list SdkCall) (a : A)
    : Prop :=
  forall w, m w = run_script sdk cs a w.

(** Errors reach the caller as the SDK raised them, and a normal return
    means the SDK accepted every call made. *)
Fixpoint accepted (sdk : Sdk) (w : World) (cs : list SdkCall) : Prop :=
  match cs with
  | [] => True
  | c :: cs' => sdk c w = None /\ accepted sdk (w ++ [c]) cs'
  end.

Definition only_sdk_errors (sdk : Sdk) {A} (m : M A) : Prop :=
  forall w,
    match m w with
    | Ok _ w' => exists cs, w' = w ++ cs /\ accepted sdk w cs
    | Throw e w' =>
        exists cs c, w' = w ++ cs ++ [c] /\ accepted sdk w cs /\
                     sdk c (w ++ cs) = Some e
    end.

(** ** Where a resource is declared *)

Definition path_eqb (p q : Path) : bool := bool_decide (p = q).

(** Is [p] a prefix of [q]: does [q] lie in the subtree of [p]? *)
Fixpoint is_prefix (p q : Path) : bool :=
  match p, q with
  | [], _ => true
  | x :: p', y :: q' => String.eqb x y && is_prefix p' q'
  | _ :: _, [] => false
  end.

(** The resource classes of the GitAuthEngine stack. *)
Definition resource_classes : list string :=
  [ "ec2.Vpc"; "ec2.SecurityGroup"; "dynamodb.Table"; "cognito.UserPool";
    "elasticache.CfnCacheCluster"; "logs.LogGroup"; "lambda.Function";
    "apigateway.RestApi" ].

(** Every construct of class [cls] is created in the scope of a class
    extending [Construct], that is inside a wrapper class. *)
Definition declared_in_wrapper (cs : list SdkCall) (cls : string) : bool :=
  forallb (fun scope => existsb (path_eqb scope) (supers_of "Construct" cs))
          (scopes_of cls cs).

(** ** Templates and the assertions of the test file

    Synthesis belongs to the SDK.  It is a parameter here: [emit c] is the
    list of template resources the SDK produces for the construct created by
    the call [c]. *)

Record CfnResource := { ResourceType : string; Properties : Props }.

Definition Template := list CfnResource.

Definition Emit := SdkCall -> list CfnResource.

(** The constructs created in the subtree of [stack]. *)
Definition under (stack : Path) (c : SdkCall) : bool :=
  match c with
  | NewConstruct _ scope _ _ => is_prefix stack scope
  | _ => false
  end.

(** [Template.fromStack(stack)]. *)
Definition Template_fromStack (emit : Emit) (stack : Path) (w : World)
    : Template :=
  flat_map emit (List.filter (under stack) w).

Definition resources_of_type (type : string) (t : Template) : Template :=
  List.filter (fun r => String.eqb (ResourceType r) type) t.

(** The matcher behind [hasResourceProperties]: an object pattern matches
    an object that has at least its keys, with matching values; anything
    else matches itself. *)
Fixpoint matches (pattern actual : Value) {struct pattern} : bool :=
  let fix all2 (ps : list Value) (xs : list Value) {struct ps} : bool :=
    match ps, xs with
    | [], [] => true
    | p :: ps', x :: xs' => matches p x && all2 ps' xs'
    | _, _ => false
    end in
  match pattern, actual with
  | VUndefined, VUndefined => true
  | VStr s, VStr s' => String.eqb s s'
  | VNum z, VNum z' => Z.eqb z z'
  | VBool b, VBool b' => Bool.eqb b b'
  | VEnum t m, VEnum t' m' => String.eqb t t' && String.eqb m m'
  | VList ps, VList xs => all2 ps xs
  | VObj po, VObj ao =>
      forallb (fun kv => matches (snd kv) (get (fst kv) ao)) po
  | VRef p, VRef p' => path_eqb p p'
  | VAttr p a, VAttr p' a' => path_eqb p p' && String.eqb a a'
  | VNew c ps, VNew c' xs => String.eqb c c' && all2 ps xs
  | VStatic f ps, VStatic f' xs => String.eqb f f' && all2 ps xs
  | _, _ => false
  end.

(** [template.hasResourceProperties(type, props)] holds. *)
Definition hasResourceProperties (t : Template) (type : string)
    (props : Props) : bool :=
  existsb (fun r => matches (VObj props) (VObj (Properties r)))
          (resources_of_type type t).

(** [template.resourceCountIs(type, n)] holds. *)
Definition resourceCountIs (t : Template) (type : string) (n : nat) : bool :=
  Nat.eqb (length (resources_of_type type t)) n.

(** The two assertions of the test ['SQS Queue and SNS Topic Created']. *)
Definition test_assertions (t : Template) : bool :=
  hasResourceProperties t "AWS::SQS::Queue" [ ("VisibilityTimeout", VNum 300) ]
  && resourceCountIs t "AWS::SNS::Topic" 1.

(** The SDK produces neither a queue nor a topic for a construct of class
    [cls]. *)
Definition emits_no_queue_or_topic (emit : Emit) (cls : string) : Prop :=
  forall scope id props r,
    In r (emit (NewConstruct cls scope id props)) ->
    ResourceType r <> "AWS::SQS::Queue" /\ ResourceType r <> "AWS::SNS::Topic".

(** One synthesis: the resource types the SDK is documented to produce for
    the three construct classes of the SplitItUI stack (a bucket; a
    distribution with its origin access identity and the bucket policy
    naming that identity; nothing for an output, which is no resource). *)
Definition documented_emit : Emit := fun c =>
  match c with
  | NewConstruct cls _ _ props =>
      if String.eqb cls "s3.Bucket" then
        [ {| ResourceType := "AWS::S3::Bucket";
             Properties := [ ("BucketName", get "bucketName" props) ] |} ]
      else if String.eqb cls "cloudfront.Distribution" then
        [ {| ResourceType := "AWS::CloudFront::CloudFrontOriginAccessIdentity";
             Properties := [] |};
          {| ResourceType := "AWS::S3::BucketPolicy"; Properties := [] |};
          {| ResourceType := "AWS::CloudFront::Distribution";
             Properties := [] |} ]
      else []
  | _ => []
  end.

(** ** References between constructs *)

(** Every construct a value refers to, at any depth. *)
Fixpoint refs (v : Value) : list Path :=
  match v with
  | VRef p => [p]
  | VAttr p _ => [p]
  | VList l => flat_map refs l
  | VObj o => flat_map (fun kv => refs (snd kv)) o
  | VNew _ args => flat_map refs args
  | VStatic _ args => flat_map refs args
  | _ => []
  end.

Definition props_refs (props : Props) : list Path :=
  flat_map (fun kv => refs (snd kv)) props.

(** The constructs a call needs to exist: its scope or target, and every
    construct its arguments refer to. *)
Definition call_refs (c : SdkCall) : list Path :=
  match c with
  | Super _ scope _ props =>
      scope :: match props with Some o => props_refs o | None => [] end
  | NewConstruct _ scope _ props => scope :: props_refs props
  | NewApp => []
  | NewObject _ args => flat_map refs args
  | StaticCall _ args => flat_map refs args
  | MethodCall target _ args => target :: flat_map refs args
  end.

(** The construct a call brings into existence. *)
Definition creates (c : SdkCall) : list Path :=
  match c with
  | Super _ scope id _ => [scope ++ [id]]
  | NewConstruct _ scope id _ => [scope ++ [id]]
  | NewApp => [[]]
  | _ => []
  end.

Definition created (cs : list SdkCall) : list Path := flat_map creates cs.

(** Each call of [cs] refers only to constructs that are [known]: given
    from outside, or created by a call before it. *)
Fixpoint well_ordered (known : list Path) (cs : list SdkCall) : Prop :=
  match cs with
  | [] => True
  | c :: cs' =>
      incl (call_refs c) known /\ well_ordered (creates c ++ known) cs'
  end.

(** ** The test, whole *)

(** The body of the test ['SQS Queue and SNS Topic Created'] run against
    the stack module [lib]: [true] when both assertions hold on the template
    of the stack ([emit] is the SDK's synthesis). *)
Definition test_SQS_Queue_and_SNS_Topic_Created (sdk : Sdk) (emit : Emit)
    (lib : gmap string StackClass) : M bool :=
  let* stack := test_stack sdk lib in
  fun w => Ok (test_assertions (Template_fromStack emit stack w)) w.

(** ** Removal policies, in every call *)

(** The values a call hands to the SDK. *)
Definition call_values (c : SdkCall) : list Value :=
  match c with
  | Super _ _ _ props => match props with Some o => [VObj o] | None => [] end
  | NewConstruct _ _ _ props => [VObj props]
  | NewApp => []
  | NewObject _ args => args
  | StaticCall _ args => args
  | MethodCall _ _ args => args
  end.

(** Every [cdk.RemovalPolicy] member that occurs in a log: in the property
    bag of a construct, in the arguments of a method call
    ([applyRemovalPolicy] among them), of a plain object or of a static
    factory, at any depth. *)
Definition removal_policy_members (cs : list SdkCall) : list string :=
  flat_map (fun c => flat_map (enum_members RemovalPolicy) (call_values c)) cs.

(** ** The CORS policy of a template

    How the SDK renders the preflight options of a REST API is the SDK's
    business; this is the shape its documentation gives to the result: an
    OPTIONS method whose integration response carries the CORS headers, each
    value in single quotes. *)

Definition first_of (v : Value) : Value :=
  match v with
  | VList (x :: _) => x
  | _ => VUndefined
  end.

Definition quoted (v : Value) : Value :=
  match v with
  | VStr s => VStr ("'" ++ s ++ "'")
  | _ => VUndefined
  end.

(** The response header [h] of a method resource. *)
Definition preflight_header (h : string) (r : CfnResource) : Value :=
  field ("method.response.header." ++ h)%string
    (field "ResponseParameters"
       (first_of (field "IntegrationResponses"
                    (get "Integration" (Properties r))))).

(** The template answers the preflight of a credentialed request from
    [origin] with leave to proceed: an OPTIONS method allows that origin, or
    every origin, and allows credentials. *)
Definition permits_credentialed_requests_from (t : Template)
    (origin : string) : bool :=
  existsb (fun r =>
    String.eqb (ResourceType r) "AWS::ApiGateway::Method"
    && matches (VStr "OPTIONS") (get "HttpMethod" (Properties r))
    && (matches (VStr "'*'") (preflight_header "Access-Control-Allow-Origin" r)
        || matches (VStr ("'" ++ origin ++ "'"))
             (preflight_header "Access-Control-Allow-Origin" r))
    && matches (VStr "'true'")
         (preflight_header "Access-Control-Allow-Credentials" r)) t.

(** The headers the SDK renders from the preflight options [opts]: the
    first allowed origin, and the credentials header when
    [allowCredentials] is true. *)
Definition cors_origin_header (opts : Value) : Value :=
  quoted (first_of (field "allowOrigins" opts)).

Definition cors_credentials_header (opts : Value) : Value :=
  match field "allowCredentials" opts with
  | VBool true => VStr "'true'"
  | _ => VUndefined
  end.


(** One such synthesis: a REST API becomes the API resource and its
    preflight method. *)
Definition documented_cors_emit : Emit := fun c =>
  match c with
  | NewConstruct cls _ _ props =>
      if String.eqb cls "apigateway.RestApi" then
        let opts := get "defaultCorsPreflightOptions" props in
        [ {| ResourceType := "AWS::ApiGateway::RestApi";
             Properties := [ ("Name", get "restApiName" props) ] |};
          {| ResourceType := "AWS::ApiGateway::Method";
             Properties :=
               [ ("HttpMethod", VStr "OPTIONS");
                 ("Integration", VObj
                    [ ("IntegrationResponses", VList
                         [ VObj
                             [ ("ResponseParameters", VObj
                                  [ ("method.response.header.Access-Control-Allow-Origin",
                                     cors_origin_header opts);
                                    ("method.response.header.Access-Control-Allow-Credentials",
                                     cors_credentials_header opts) ]) ] ]) ]) ] |} ]
      else []
  | _ => []
  end.

(** ** The monad and straight-line scripts *)

Section Scripts.

Context (sdk : Sdk).

Lemma run_script_app {A B} (cs cs' : list SdkCall) (a : A) (k : A -> M B)
    (b : B) :
  straight sdk (k a) cs' b ->
  forall w, bind (run_script sdk cs a) k w = run_script sdk (cs ++ cs') b w.
Proof.
  intros Hk. induction cs as [|c cs IH]; intros w; simpl.
  - unfold bind; simpl. apply Hk.
  - unfold bind in *; simpl. destruct (sdk c w); [reflexivity | apply IH].
Qed.

Lemma straight_ret {A} (a : A) : straight sdk (ret a) [] a.
Proof. intros w. reflexivity. Qed.

Lemma straight_call (c : SdkCall) : straight sdk (call sdk c) [c] tt.
Proof. intros w. unfold call; simpl. destruct (sdk c w); reflexivity. Qed.

Lemma straight_bind {A B} (m : M A) (k : A -> M B) cs cs' cs'' a b :
  straight sdk m cs a ->
  straight sdk (k a) cs' b ->
  cs'' = cs ++ cs' ->
  straight sdk (bind m k) cs'' b.
Proof.
  intros Hm Hk -> w. rewrite <- (run_script_app cs cs' a k b Hk w).
  unfold bind. rewrite Hm. reflexivity.
Qed.

Lemma run_script_outcome {A} (cs : list SdkCall) (a : A) (w : World) :
  match run_script sdk cs a w with
  | Ok a' w' => a' = a /\ w' = w ++ cs /\ accepted sdk w cs
  | Throw e w' =>
      exists cs1 c cs2, cs = cs1 ++ c :: cs2 /\ w' = w ++ cs1 ++ [c] /\
                        accepted sdk w cs1 /\ sdk c (w ++ cs1) = Some e
  end.
Proof.
  revert w. induction cs as [|c cs IH]; intros w; simpl.
  - rewrite app_nil_r. auto.
  - destruct (sdk c w) as [e|] eqn:Hc.
    + exists [], c, cs. simpl. rewrite app_nil_r. auto.
    + specialize (IH (w ++ [c])).
      destruct (run_script sdk cs a (w ++ [c])) as [a' w'|e w'].
      * destruct IH as (-> & -> & Hacc). rewrite <- app_assoc. simpl. auto.
      * destruct IH as (cs1 & c' & cs2 & -> & -> & Hacc & He).
        exists (c :: cs1), c', cs2. rewrite <- !app_assoc in *. simpl in *.
        auto.
Qed.

Lemma straight_Ok {A} (m : M A) cs a w r w' :
  straight sdk m cs a -> m w = Ok r w' ->
  r = a /\ w' = w ++ cs /\ accepted sdk w cs.
Proof.
  intros Hm Hrun. rewrite Hm in Hrun.
  pose proof (run_script_outcome cs a w) as H. rewrite Hrun in H. exact H.
Qed.

Lemma straight_Throw {A} (m : M A) cs (a : A) w e w' :
  straight sdk m cs a -> m w = Throw e w' ->
  exists cs1 c cs2, cs = cs1 ++ c :: cs2 /\ w' = w ++ cs1 ++ [c] /\
                    accepted sdk w cs1 /\ sdk c (w ++ cs1) = Some e.
Proof.
  intros Hm Hrun. rewrite Hm in Hrun.
  pose proof (run_script_outcome cs a w) as H. rewrite Hrun in H. exact H.
Qed.

Lemma straight_only_sdk_errors {A} (m : M A) cs (a : A) :
  straight sdk m cs a -> only_sdk_errors sdk m.
Proof.
  intros Hm w. rewrite Hm.
  pose proof (run_script_outcome cs a w) as H.
  destruct (run_script sdk cs a w) as [a' w'|e w'].
  - destruct H as (_ & -> & Hacc). eauto.
  - destruct H as (cs1 & c & _ & _ & -> & Hacc & He). eauto.
Qed.

End Scripts.

(** Under the SDK that refuses nothing, a script logs all its calls. *)
Lemma run_script_permissive {A} (cs : list SdkCall) (a : A) (w : World) :
  run_script permissive cs a w = Ok a (w ++ cs).
Proof.
  revert w. induction cs as [|c cs IH]; intros w; simpl.
  - by rewrite app_nil_r.
  - rewrite IH, <- app_assoc. reflexivity.
Qed.

(** So a straight-line program returns when nothing is refused. *)
Lemma straight_permissive {A} (m : M A) cs (a : A) (w : World) :
  straight permissive m cs a -> m w = Ok a (w ++ cs).
Proof. intros Hm. rewrite Hm. apply run_script_permissive. Qed.

(** Unfolds the SDK primitives and composes [straight] along the binds. *)
Create HintDb straight.

Ltac straight_steps :=
  first
    [ apply straight_ret
    | apply straight_call
    | solve [ eauto with straight nocore ]
    | eapply straight_bind; [ straight_steps | straight_steps | reflexivity ] ].

Ltac straight_prims :=
  unfold super, new_construct, new_App, new_object, static_call, method_call.

(** ** Every constructor is a straight-line script *)

Lemma WebAppStack_straight sdk scope id props :
  straight sdk (WebAppStack sdk scope id props)
    (calls_of (fun sdk => WebAppStack sdk scope id props)) (scope ++ [id]).
Proof. unfold WebAppStack. straight_prims. straight_steps. Qed.

Lemma ApiGatewayConstruct_straight sdk scope id props :
  straight sdk (ApiGatewayConstruct sdk scope id props)
    (calls_of (fun sdk => ApiGatewayConstruct sdk scope id props))
    {| apiGateway_this := scope ++ [id];
       apiGateway :=
         (scope ++ [id]) ++ [ApiGatewayConstructProps.apigatewayName props] |}.
Proof. unfold ApiGatewayConstruct. straight_prims. straight_steps. Qed.

Lemma AuthLambdaConstruct_straight sdk scope id props :
  straight sdk (AuthLambdaConstruct sdk scope id props)
    (calls_of (fun sdk => AuthLambdaConstruct sdk scope id props))
    {| authLambda_this := scope ++ [id];
       lambdaFunction :=
         (scope ++ [id]) ++ [AuthLambdaConstructProps.functionName props] |}.
Proof. unfold AuthLambdaConstruct. straight_prims. straight_steps. Qed.

Lemma DynamoDBConstruct_straight sdk scope id props :
  straight sdk (DynamoDBConstruct sdk scope id props)
    (calls_of (fun sdk => DynamoDBConstruct sdk scope id props))
    {| dynamoDb_this := scope ++ [id];
       table := (scope ++ [id]) ++ [DynamoDBConstructProps.tableName props] |}.
Proof. unfold DynamoDBConstruct. straight_prims. straight_steps. Qed.

Lemma CognitoConstruct_straight sdk scope id props :
  straight sdk (CognitoConstruct sdk scope id props)
    (calls_of (fun sdk => CognitoConstruct sdk scope id props))
    {| cognito_this := scope ++ [id];
       userPool := (scope ++ [id]) ++ [CognitoConstructProps.userPoolName props];
       userPoolClient :=
         (scope ++ [id]) ++ [CognitoConstructProps.clientName props] |}.
Proof. unfold CognitoConstruct. straight_prims. straight_steps. Qed.

Lemma ElastiCacheConstruct_straight sdk scope id props :
  straight sdk (ElastiCacheConstruct sdk scope id props)
    (calls_of (fun sdk => ElastiCacheConstruct sdk scope id props))
    {| elastiCache_this := scope ++ [id];
       cacheCluster :=
         (scope ++ [id]) ++ [ElastiCacheConstructProps.cacheClusterId props] |}.
Proof. unfold ElastiCacheConstruct. straight_prims. straight_steps. Qed.

Lemma CloudWatchConstruct_straight sdk scope id props :
  straight sdk (CloudWatchConstruct sdk scope id props)
    (calls_of (fun sdk => CloudWatchConstruct sdk scope id props))
    {| cloudWatch_this := scope ++ [id];
       logGroup :=
         (scope ++ [id]) ++ [CloudWatchConstructProps.logGroupName props] |}.
Proof. unfold CloudWatchConstruct. straight_prims. straight_steps. Qed.

#[global] Hint Resolve ApiGatewayConstruct_straight AuthLambdaConstruct_straight
  DynamoDBConstruct_straight CognitoConstruct_straight
  ElastiCacheConstruct_straight CloudWatchConstruct_straight : straight.

Lemma MyStack_straight sdk scope id props :
  straight sdk (MyStack sdk scope id props)
    (calls_of (fun sdk => MyStack sdk scope id props)) (scope ++ [id]).
Proof. unfold MyStack. straight_prims. straight_steps. Qed.

#[global] Hint Resolve WebAppStack_straight MyStack_straight : straight.

Lemma GitAuthEngine_main_straight sdk :
  straight sdk (GitAuthEngine_main sdk) (calls_of GitAuthEngine_main) tt.
Proof. unfold GitAuthEngine_main. straight_prims. straight_steps. Qed.

(** ** The SplitItUI stack *)

(** C1: the stack module exports the single name [WebAppStack], bound to
    the stack class; the default import of the test file finds no export,
    so its binding is not that class, and the test never obtains a stack. *)
Theorem default_import_unresolved sdk :
  dom (SplitItUI_cdk_stack sdk) = ({[ "WebAppStack" ]} : gset string) /\
  SplitItUI_cdk_stack sdk !! "WebAppStack" = Some (WebAppStack sdk) /\
  import_default (SplitItUI_cdk_stack sdk) = None /\
  import_default (SplitItUI_cdk_stack sdk) <> Some (WebAppStack sdk) /\
  forall w stack w',
    test_stack sdk (SplitItUI_cdk_stack sdk) w <> Ok stack w'.
Proof.
  unfold import_default, SplitItUI_cdk_stack.
  assert (Hnone : ({[ "WebAppStack" := WebAppStack sdk ]}
                     : gmap string (StackClass)) !! "default" = None)
    by (by apply lookup_singleton_ne).
  split_and!.
  - apply dom_singleton_L.
  - apply lookup_singleton_eq.
  - exact Hnone.
  - rewrite Hnone. discriminate.
  - intros w stack w'. unfold test_stack, import_default. rewrite Hnone.
    unfold bind, new_App, bind, call, construct, throw, ret.
    destruct (sdk NewApp w); discriminate.
Qed.

(** C5: the constructor creates one bucket and, after it, one distribution
    in the same stack scope; the origin of the distribution's default
    behaviour is an S3 origin over that very bucket, and the stack's one
    output holds the domain name of that distribution. *)
Theorem WebAppStack_wires_bucket_to_distribution sdk scope id props :
  exists cs,
    straight sdk (WebAppStack sdk scope id props) cs (scope ++ [id]) /\
    let this := scope ++ [id] in
    let bucket := this ++ ["WebAppS3"] in
    let distribution := this ++ ["ContentDelivery"] in
    paths_of "s3.Bucket" cs = [bucket] /\
    paths_of "cloudfront.Distribution" cs = [distribution] /\
    scopes_of "s3.Bucket" cs = [this] /\
    scopes_of "cloudfront.Distribution" cs = [this] /\
    position "s3.Bucket" cs = Some 1 /\
    position "cloudfront.Distribution" cs = Some 3 /\
    subprop "cloudfront.Distribution" "defaultBehavior" "origin" cs
      = [ VNew "cloudfront.S3Origin" [VRef bucket] ] /\
    scopes_of "cdk.CfnOutput" cs = [this] /\
    props_of "cdk.CfnOutput" cs
      = [ [ ("value", VAttr distribution "distributionDomainName") ] ].
Proof.
  exists (calls_of (fun sdk => WebAppStack sdk scope id props)).
  split; [apply WebAppStack_straight | split_and!; reflexivity].
Qed.

(** ** Hard-coded property values *)

(** C6: whatever the scope, id and stack properties, and whatever the SDK
    does, the two stacks hand the SDK these constants: bucket name
    'my-webapp-bucket'; table name 'MyTable' with partition key 'ID' of
    string type; user pool name 'MyUserPool'; cache cluster id
    'MyCacheCluster', node type 'cache.t2.micro', engine 'redis'; log group
    name 'MyLogGroup' retained one month; CORS origins ['*'] and methods
    ['POST']; stage name 'prod'. *)
Theorem hard_coded_property_values sdk scope id props :
  (exists cs,
     straight sdk (WebAppStack sdk scope id props) cs (scope ++ [id]) /\
     prop "s3.Bucket" "bucketName" cs = [ VStr "my-webapp-bucket" ]) /\
  (exists cs,
     straight sdk (MyStack sdk scope id props) cs (scope ++ [id]) /\
     prop "dynamodb.Table" "tableName" cs = [ VStr "MyTable" ] /\
     prop "dynamodb.Table" "partitionKey" cs
       = [ VObj [ ("name", VStr "ID");
                  ("type", VEnum "dynamodb.AttributeType" "STRING") ] ] /\
     prop "cognito.UserPool" "userPoolName" cs = [ VStr "MyUserPool" ] /\
     ids_of "elasticache.CfnCacheCluster" cs = [ "MyCacheCluster" ] /\
     prop "elasticache.CfnCacheCluster" "clusterName" cs
       = [ VStr "MyCacheCluster" ] /\
     prop "elasticache.CfnCacheCluster" "cacheNodeType" cs
       = [ VStr "cache.t2.micro" ] /\
     prop "elasticache.CfnCacheCluster" "engine" cs = [ VStr "redis" ] /\
     prop "logs.LogGroup" "logGroupName" cs = [ VStr "MyLogGroup" ] /\
     prop "logs.LogGroup" "retention" cs
       = [ VEnum "logs.RetentionDays" "ONE_MONTH" ] /\
     subprop "apigateway.RestApi" "defaultCorsPreflightOptions"
       "allowOrigins" cs = [ VList [ VStr "*" ] ] /\
     subprop "apigateway.RestApi" "defaultCorsPreflightOptions"
       "allowMethods" cs = [ VList [ VStr "POST" ] ] /\
     subprop "apigateway.RestApi" "deployOptions" "stageName" cs
       = [ VStr "prod" ]).
Proof.
  split.
  - exists (calls_of (fun sdk => WebAppStack sdk scope id props)).
    split; [apply WebAppStack_straight | reflexivity].
  - exists (calls_of (fun sdk => MyStack sdk scope id props)).
    split; [apply MyStack_straight | split_and!; reflexivity].
Qed.

(** ** The GitAuthEngine stack *)

(** C8: whatever properties the wrapper is given, it attaches to the role
    of the function it has just created one policy statement, with actions
    ['dynamodb:*', 'cognito-idp:*', 'elasticache:*', 'logs:*'] on resources
    ['*']; the stack's one function is created through that wrapper and so
    carries that statement. *)
Theorem AuthLambdaConstruct_wildcard_policy sdk scope id :
  let statement :=
    VNew "iam.PolicyStatement"
      [ VObj [ ("actions", VList [ VStr "dynamodb:*"; VStr "cognito-idp:*";
                                   VStr "elasticache:*"; VStr "logs:*" ]);
               ("resources", VList [ VStr "*" ]) ] ] in
  (forall props, exists cs obj,
     straight sdk (AuthLambdaConstruct sdk scope id props) cs obj /\
     paths_of "lambda.Function" cs = [ lambdaFunction obj ] /\
     method_calls "addToRolePolicy" cs
       = [ (lambdaFunction obj, [ statement ]) ]) /\
  (forall props, exists cs,
     straight sdk (MyStack sdk scope id props) cs (scope ++ [id]) /\
     scopes_of "lambda.Function" cs
       = [ (scope ++ [id]) ++ ["AuthLambdaConstruct"] ] /\
     method_calls "addToRolePolicy" cs
       = map (fun fn => (fn, [ statement ])) (paths_of "lambda.Function" cs)).
Proof.
  split; intros props.
  - eexists _, _. split; [apply AuthLambdaConstruct_straight |].
    split; reflexivity.
  - eexists. split; [apply MyStack_straight |]. split; reflexivity.
Qed.

(** X23: the API gateway wrapper always sets [allowCredentials] to true in
    the CORS preflight options and allows the origins it is given; the stack
    gives it ['*']. *)
Theorem ApiGatewayConstruct_cors_configuration sdk scope id :
  (forall props, exists cs obj,
     straight sdk (ApiGatewayConstruct sdk scope id props) cs obj /\
     subprop "apigateway.RestApi" "defaultCorsPreflightOptions"
       "allowCredentials" cs = [ VBool true ] /\
     subprop "apigateway.RestApi" "defaultCorsPreflightOptions"
       "allowOrigins" cs
       = [ VList (map VStr (ApiGatewayConstructProps.allowedOrigins props)) ]) /\
  (forall props, exists cs,
     straight sdk (MyStack sdk scope id props) cs (scope ++ [id]) /\
     scopes_of "apigateway.RestApi" cs
       = [ (scope ++ [id]) ++ ["ApiGatewayConstruct"] ] /\
     subprop "apigateway.RestApi" "defaultCorsPreflightOptions"
       "allowCredentials" cs = [ VBool true ] /\
     subprop "apigateway.RestApi" "defaultCorsPreflightOptions"
       "allowOrigins" cs = [ VList [ VStr "*" ] ]).
Proof.
  split; intros props.
  - eexists _, _. split; [apply ApiGatewayConstruct_straight |].
    split; reflexivity.
  - eexists. split; [apply MyStack_straight |]. split_and!; reflexivity.
Qed.

(** C10: the removal policies written in the two stacks are those of the
    bucket, the table, the log group and the API gateway's CloudWatch role,
    and each is DESTROY.  No other member of the enumeration (RETAIN among
    them) reaches the SDK in any call that follows [super]: not in a
    property bag, not in the arguments of a method call, of an object or of
    a factory, at any depth; and [applyRemovalPolicy] is never called.  The
    [super] call alone carries what the caller of the stack gave, and the
    one caller of [MyStack] gives nothing. *)
Theorem removal_policies_are_DESTROY sdk scope id props :
  (exists cs,
     straight sdk (WebAppStack sdk scope id props) cs (scope ++ [id]) /\
     removal_policies cs = [ ("s3.Bucket", "removalPolicy", "DESTROY") ] /\
     head cs = Some (Super "cdk.Stack" scope id props) /\
     removal_policy_members (tail cs) = [ "DESTROY" ] /\
     method_calls "applyRemovalPolicy" cs = []) /\
  (exists cs,
     straight sdk (MyStack sdk scope id props) cs (scope ++ [id]) /\
     removal_policies cs
       = [ ("dynamodb.Table", "removalPolicy", "DESTROY");
           ("logs.LogGroup", "removalPolicy", "DESTROY");
           ("apigateway.RestApi", "cloudWatchRoleRemovalPolicy", "DESTROY") ] /\
     head cs = Some (Super "cdk.Stack" scope id props) /\
     removal_policy_members (tail cs) = [ "DESTROY"; "DESTROY"; "DESTROY" ] /\
     method_calls "applyRemovalPolicy" cs = []) /\
  (exists cs,
     straight sdk (GitAuthEngine_main sdk) cs tt /\
     removal_policy_members cs = [ "DESTROY"; "DESTROY"; "DESTROY" ] /\
     method_calls "applyRemovalPolicy" cs = []).
Proof.
  split_and!; eexists;
    (split; [first [ apply WebAppStack_straight | apply MyStack_straight
                   | apply GitAuthEngine_main_straight ]
            | split_and!; reflexivity]).
Qed.

(** The reading of C10 sees a policy given after construction: a bucket
    marked RETAIN through [applyRemovalPolicy] is found. *)
Lemma removal_policy_members_sees_method_calls :
  removal_policy_members
    [ NewConstruct "s3.Bucket" ["CdkStack"] "WebAppS3"
        [ ("removalPolicy", DESTROY) ];
      MethodCall ["CdkStack"; "WebAppS3"] "applyRemovalPolicy"
        [ VEnum RemovalPolicy "RETAIN" ] ]
  = [ "DESTROY"; "RETAIN" ].
Proof. reflexivity. Qed.

(** ** Errors *)

(** C7: the six construct wrappers and the two stack constructors raise,
    catch and change no error.  Whatever the SDK does, a constructor that
    throws throws the error the SDK raised at the last call attempted, all
    calls before it having been accepted; and a constructor that returns
    has had every one of its calls accepted. *)
Theorem constructors_raise_only_sdk_errors sdk scope id :
  (forall props, only_sdk_errors sdk (ApiGatewayConstruct sdk scope id props)) /\
  (forall props, only_sdk_errors sdk (AuthLambdaConstruct sdk scope id props)) /\
  (forall props, only_sdk_errors sdk (DynamoDBConstruct sdk scope id props)) /\
  (forall props, only_sdk_errors sdk (CognitoConstruct sdk scope id props)) /\
  (forall props, only_sdk_errors sdk (ElastiCacheConstruct sdk scope id props)) /\
  (forall props, only_sdk_errors sdk (CloudWatchConstruct sdk scope id props)) /\
  (forall props, only_sdk_errors sdk (MyStack sdk scope id props)) /\
  (forall props, only_sdk_errors sdk (WebAppStack sdk scope id props)).
Proof.
  split_and!; intros props; eapply straight_only_sdk_errors;
    eauto with straight nocore.
Qed.

(** The predicate of C7 tells programs apart: the SDK's refusal of the
    bucket reaches the caller of [WebAppStack] as it was raised, while the
    runtime's [TypeError] on an unresolved binding and a handler that drops
    an error are both ruled out. *)
Lemma WebAppStack_refused_bucket :
  WebAppStack refuse_bucket [] "CdkStack" None [NewApp]
  = Throw (SdkError "bucket name in use")
      [ NewApp; Super "cdk.Stack" [] "CdkStack" None;
        NewConstruct "s3.Bucket" ["CdkStack"] "WebAppS3"
          [ ("bucketName", VStr "my-webapp-bucket");
            ("removalPolicy", DESTROY) ] ].
Proof. reflexivity. Qed.

Lemma unresolved_binding_not_only_sdk_errors :
  ~ only_sdk_errors permissive
      (construct None "cdk_Stack" [] "CdkStack" None).
Proof.
  intros H. specialize (H []). simpl in H.
  destruct H as (cs & c & _ & _ & Hsdk). discriminate Hsdk.
Qed.

Lemma handler_not_only_sdk_errors :
  ~ only_sdk_errors refuse_bucket
      (try_catch
         (new_construct refuse_bucket "s3.Bucket" [] "WebAppS3" [])
         (fun _ => ret [])).
Proof.
  intros H. specialize (H []). simpl in H.
  destruct H as (cs & Hcs & Hacc). simpl in Hcs. subst cs.
  destruct Hacc as [Hsdk _]. discriminate Hsdk.
Qed.

(** ** Wrappers *)

(** C3, as stated, fails on the stack as written: the VPC and the security
    group are created in the scope of the stack itself, inside no wrapper
    class, and the Lambda wrapper makes four SDK calls after [super], the
    last of them a method call on the function. *)
Lemma every_resource_wrapped_counterexample :
  let stack := calls_of (fun sdk => MyStack sdk [] "MyStack" None) in
  let wrapper :=
    calls_of (fun sdk =>
      AuthLambdaConstruct sdk ["MyStack"] "AuthLambdaConstruct"
        {| AuthLambdaConstructProps.functionName := "AuthLambdaFunction";
           AuthLambdaConstructProps.handler := "index.handler";
           AuthLambdaConstructProps.codePath := "path/to/your/code";
           AuthLambdaConstructProps.vpc := ["MyStack"; "Vpc"];
           AuthLambdaConstructProps.securityGroups :=
             [ ["MyStack"; "SecurityGroup"] ];
           AuthLambdaConstructProps.environment := [] |}) in
  ~ (forall cls, In cls resource_classes ->
       declared_in_wrapper stack cls = true) /\
  scopes_of "ec2.Vpc" stack = [ ["MyStack"] ] /\
  scopes_of "ec2.SecurityGroup" stack = [ ["MyStack"] ] /\
  length (own_calls wrapper) = 4 /\
  last (own_calls wrapper)
    = Some (MethodCall ["MyStack"; "AuthLambdaConstruct"; "AuthLambdaFunction"]
              "addToRolePolicy"
              [ VNew "iam.PolicyStatement"
                  [ VObj [ ("actions",
                            VList [ VStr "dynamodb:*"; VStr "cognito-idp:*";
                                    VStr "elasticache:*"; VStr "logs:*" ]);
                           ("resources", VList [ VStr "*" ]) ] ] ]).
Proof.
  split_and!; try reflexivity.
  intros H. specialize (H "ec2.Vpc"). simpl in H.
  assert (Hvpc : declared_in_wrapper
                   (calls_of (fun sdk => MyStack sdk [] "MyStack" None))
                   "ec2.Vpc" = false) by (vm_compute; reflexivity).
  rewrite Hvpc in H. discriminate H. by left.
Qed.

(** C3, amended: the table, the user pool, the cache cluster, the log
    group, the function and the REST API are each created in the scope of
    their wrapper class, the VPC and the security group in the scope of the
    stack itself.  After [super], the DynamoDB, ElastiCache and CloudWatch
    wrappers make one SDK call, the constructor of their resource; the
    Cognito wrapper makes two constructor calls; the API gateway wrapper
    builds a Lambda integration and then the REST API; the Lambda wrapper
    calls [Code.fromAsset], the function constructor, the policy statement
    constructor and [addToRolePolicy].  The calls and the keys of their
    property bags do not depend on the wrapper's properties. *)
Theorem resources_and_their_wrappers sdk scope id :
  (forall props, exists cs,
     straight sdk (MyStack sdk scope id props) cs (scope ++ [id]) /\
     let this := scope ++ [id] in
     scopes_of "ec2.Vpc" cs = [ this ] /\
     scopes_of "ec2.SecurityGroup" cs = [ this ] /\
     scopes_of "dynamodb.Table" cs = [ this ++ ["DynamoDBConstruct"] ] /\
     scopes_of "cognito.UserPool" cs = [ this ++ ["CognitoConstruct"] ] /\
     scopes_of "elasticache.CfnCacheCluster" cs
       = [ this ++ ["ElastiCacheConstruct"] ] /\
     scopes_of "logs.LogGroup" cs = [ this ++ ["CloudWatchConstruct"] ] /\
     scopes_of "lambda.Function" cs = [ this ++ ["AuthLambdaConstruct"] ] /\
     scopes_of "apigateway.RestApi" cs = [ this ++ ["ApiGatewayConstruct"] ] /\
     supers_of "Construct" cs
       = [ this ++ ["DynamoDBConstruct"]; this ++ ["CognitoConstruct"];
           this ++ ["ElastiCacheConstruct"]; this ++ ["CloudWatchConstruct"];
           this ++ ["AuthLambdaConstruct"]; this ++ ["ApiGatewayConstruct"] ]) /\
  (forall props, exists cs obj,
     straight sdk (DynamoDBConstruct sdk scope id props) cs obj /\
     map shape (own_calls cs)
       = [ ("new dynamodb.Table",
            [ "tableName"; "partitionKey"; "removalPolicy" ]) ]) /\
  (forall props, exists cs obj,
     straight sdk (ElastiCacheConstruct sdk scope id props) cs obj /\
     map shape (own_calls cs)
       = [ ("new elasticache.CfnCacheCluster",
            [ "vpcSecurityGroupIds"; "cacheNodeType"; "engine";
              "numCacheNodes"; "clusterName" ]) ]) /\
  (forall props, exists cs obj,
     straight sdk (CloudWatchConstruct sdk scope id props) cs obj /\
     map shape (own_calls cs)
       = [ ("new logs.LogGroup",
            [ "logGroupName"; "retention"; "removalPolicy" ]) ]) /\
  (forall props, exists cs obj,
     straight sdk (CognitoConstruct sdk scope id props) cs obj /\
     map shape (own_calls cs)
       = [ ("new cognito.UserPool", [ "userPoolName"; "selfSignUpEnabled" ]);
           ("new cognito.UserPoolClient", [ "userPool" ]) ]) /\
  (forall props, exists cs obj,
     straight sdk (ApiGatewayConstruct sdk scope id props) cs obj /\
     map shape (own_calls cs)
       = [ ("new apigateway.LambdaIntegration", []);
           ("new apigateway.RestApi",
            [ "restApiName"; "defaultCorsPreflightOptions"; "description";
              "endpointExportName"; "deployOptions"; "cloudWatchRole";
              "cloudWatchRoleRemovalPolicy"; "defaultIntegration";
              "failOnWarnings"; "retainDeployments";
              "defaultMethodOptions" ]) ]) /\
  (forall props, exists cs obj,
     straight sdk (AuthLambdaConstruct sdk scope id props) cs obj /\
     map shape (own_calls cs)
       = [ ("lambda.Code.fromAsset", []);
           ("new lambda.Function",
            [ "runtime"; "handler"; "code"; "vpc"; "securityGroups";
              "environment" ]);
           ("new iam.PolicyStatement", [ "actions"; "resources" ]);
           (".addToRolePolicy", []) ]).
Proof.
  split_and!; intros props.
  - eexists. split; [apply MyStack_straight | split_and!; reflexivity].
  - eexists _, _. split; [apply DynamoDBConstruct_straight | reflexivity].
  - eexists _, _. split; [apply ElastiCacheConstruct_straight | reflexivity].
  - eexists _, _. split; [apply CloudWatchConstruct_straight | reflexivity].
  - eexists _, _. split; [apply CognitoConstruct_straight | reflexivity].
  - eexists _, _. split; [apply ApiGatewayConstruct_straight | reflexivity].
  - eexists _, _. split; [apply AuthLambdaConstruct_straight | reflexivity].
Qed.

(** ** Entry points *)

(** C4: the bin script instantiates no stack.  The name it imports,
    [cdk_Stack], is not among the exports of the stack module, whose one
    class is exported as [WebAppStack]; so, whatever the SDK does and from
    any world, the script never returns the stack it was to instantiate,
    and the constructor of no stack is entered. *)
Theorem SplitItUI_cdk_bin_instantiates_no_stack sdk w :
  import_named (SplitItUI_cdk_stack sdk) "cdk_Stack" = None /\
  import_named (SplitItUI_cdk_stack sdk) "WebAppStack"
    = Some (WebAppStack sdk) /\
  (forall cdk_package w',
     SplitItUI_cdk_bin sdk (SplitItUI_cdk_stack sdk) w <> Ok cdk_package w') /\
  supers_of "cdk.Stack"
    (drop (length w)
       (final_world (SplitItUI_cdk_bin sdk (SplitItUI_cdk_stack sdk) w)))
    = [].
Proof.
  assert (Hnone : import_named (SplitItUI_cdk_stack sdk) "cdk_Stack" = None)
    by (by apply lookup_singleton_ne).
  assert (Hrun : exists e, SplitItUI_cdk_bin sdk (SplitItUI_cdk_stack sdk) w
                           = Throw e (w ++ [NewApp])).
  { unfold SplitItUI_cdk_bin. rewrite Hnone.
    unfold construct, new_App, throw, bind, call, ret.
    destruct (sdk NewApp w); eauto. }
  destruct Hrun as [e Hrun]. split_and!.
  - exact Hnone.
  - apply lookup_singleton_eq.
  - intros cdk_package w'. rewrite Hrun. discriminate.
  - rewrite Hrun. simpl. rewrite drop_app_length. reflexivity.
Qed.

(** X24: the entry point that closes the GitAuthEngine file creates an app,
    instantiates exactly one stack in it, [MyStack] with id 'MyStack' and
    no properties, and ends with [app.synth()], its one call of [synth]. *)
Theorem GitAuthEngine_main_one_stack_then_synth sdk :
  exists cs,
    straight sdk (GitAuthEngine_main sdk) (NewApp :: cs ++ [MethodCall [] "synth" []])
      tt /\
    straight sdk (MyStack sdk [] "MyStack" None) cs ["MyStack"] /\
    supers_of "cdk.Stack" cs = [ ["MyStack"] ] /\
    method_calls "synth" cs = [].
Proof.
  exists (calls_of (fun sdk => MyStack sdk [] "MyStack" None)).
  split_and!; [| apply MyStack_straight | reflexivity | reflexivity].
  apply GitAuthEngine_main_straight.
Qed.

(** ** The template of the SplitItUI stack *)

Lemma is_prefix_refl (p : Path) : is_prefix p p = true.
Proof.
  induction p as [|x p IH]; simpl; [reflexivity |].
  rewrite String.eqb_refl. exact IH.
Qed.

Lemma resources_of_type_none (type : string) (t : Template) :
  (forall r, In r t -> ResourceType r <> type) ->
  resources_of_type type t = [].
Proof.
  intros H. induction t as [|r t IH]; simpl; [reflexivity |].
  destruct (String.eqb_spec (ResourceType r) type) as [Heq | _].
  - exfalso. apply (H r); [by left | exact Heq].
  - apply IH. intros r' Hr'. apply H. by right.
Qed.

(** A template holds no resource of a type that the SDK emits for none of
    the constructs under the stack. *)
Lemma Template_fromStack_none emit stack (w : World) type :
  (forall c, In c w -> under stack c = true ->
             forall r, In r (emit c) -> ResourceType r <> type) ->
  resources_of_type type (Template_fromStack emit stack w) = [].
Proof.
  intros H. apply resources_of_type_none. intros r Hr.
  unfold Template_fromStack in Hr. apply in_flat_map in Hr.
  destruct Hr as (c & Hc & Hr). apply filter_In in Hc.
  destruct Hc as [Hc Hunder]. exact (H c Hc Hunder r Hr).
Qed.

(** C2: for every SDK whose synthesis emits neither a queue nor a topic
    for a bucket, a distribution or an output, and for every scope, id and
    properties, the template of a constructed [WebAppStack] holds no
    AWS::SQS::Queue and no AWS::SNS::Topic; the two assertions of the test
    (a queue with VisibilityTimeout 300, exactly one topic) both fail on
    it. *)
Theorem WebAppStack_template_has_no_queue_or_topic
    sdk emit scope id props (w : World) this w' :
  (forall cls,
     In cls [ "s3.Bucket"; "cloudfront.Distribution"; "cdk.CfnOutput" ] ->
     emits_no_queue_or_topic emit cls) ->
  (forall c, In c w -> under (scope ++ [id]) c = false) ->
  WebAppStack sdk scope id props w = Ok this w' ->
  let template := Template_fromStack emit this w' in
  resources_of_type "AWS::SQS::Queue" template = [] /\
  resources_of_type "AWS::SNS::Topic" template = [] /\
  hasResourceProperties template "AWS::SQS::Queue"
    [ ("VisibilityTimeout", VNum 300) ] = false /\
  resourceCountIs template "AWS::SNS::Topic" 1 = false /\
  test_assertions template = false.
Proof.
  intros Hemit Hfresh Hrun.
  destruct (straight_Ok sdk _ _ _ _ _ _ (WebAppStack_straight sdk scope id props)
              Hrun) as (-> & -> & _).
  assert (Hnone : forall c,
            In c (w ++ calls_of (fun sdk => WebAppStack sdk scope id props)) ->
            under (scope ++ [id]) c = true ->
            forall r, In r (emit c) ->
              ResourceType r <> "AWS::SQS::Queue" /\
              ResourceType r <> "AWS::SNS::Topic").
  { intros c Hc Hunder r Hr. apply in_app_or in Hc. destruct Hc as [Hc | Hc].
    - rewrite (Hfresh c Hc) in Hunder. discriminate.
    - unfold calls_of in Hc; simpl in Hc.
      destruct Hc as [<- | [<- | [<- | [<- | [<- | []]]]]];
        try discriminate Hunder;
        (eapply Hemit; [| exact Hr]); simpl; tauto. }
  cbv zeta.
  assert (Hq : resources_of_type "AWS::SQS::Queue"
                 (Template_fromStack emit (scope ++ [id])
                    (w ++ calls_of (fun sdk => WebAppStack sdk scope id props)))
               = [])
    by (apply Template_fromStack_none; intros c Hc Hu r Hr;
        exact (proj1 (Hnone c Hc Hu r Hr))).
  assert (Ht : resources_of_type "AWS::SNS::Topic"
                 (Template_fromStack emit (scope ++ [id])
                    (w ++ calls_of (fun sdk => WebAppStack sdk scope id props)))
               = [])
    by (apply Template_fromStack_none; intros c Hc Hu r Hr;
        exact (proj2 (Hnone c Hc Hu r Hr))).
  unfold test_assertions, hasResourceProperties, resourceCountIs.
  rewrite Hq, Ht. split_and!; reflexivity.
Qed.

Lemma WebAppStack_template_has_no_queue_or_topic_witness :
  let template :=
    Template_fromStack documented_emit ["MyTestStack"]
      (final_world (WebAppStack permissive [] "MyTestStack" None [NewApp])) in
  map ResourceType template
    = [ "AWS::S3::Bucket"; "AWS::CloudFront::CloudFrontOriginAccessIdentity";
        "AWS::S3::BucketPolicy"; "AWS::CloudFront::Distribution" ] /\
  resources_of_type "AWS::SQS::Queue" template = [] /\
  resources_of_type "AWS::SNS::Topic" template = [] /\
  hasResourceProperties template "AWS::SQS::Queue"
    [ ("VisibilityTimeout", VNum 300) ] = false /\
  resourceCountIs template "AWS::SNS::Topic" 1 = false /\
  test_assertions template = false.
Proof.
  split; [reflexivity |].
  apply (WebAppStack_template_has_no_queue_or_topic permissive documented_emit
           [] "MyTestStack" None [NewApp] ["MyTestStack"]).
  - intros cls Hcls scope id props r Hr.
    destruct Hcls as [<- | [<- | [<- | []]]]; simpl in Hr;
      repeat (destruct Hr as [<- | Hr]; [split; discriminate |]);
      destruct Hr.
  - intros c [<- | []]. reflexivity.
  - reflexivity.
Defined.

(** ** More on the GitAuthEngine stack: how the resources are wired *)

(** X1: The Cognito wrapper binds its client to the pool it has just created,
    whatever names it is given, and returns the handles of both. *)
Theorem CognitoConstruct_client_of_own_pool sdk scope id props :
  exists cs obj,
    straight sdk (CognitoConstruct sdk scope id props) cs obj /\
    paths_of "cognito.UserPool" cs = [ userPool obj ] /\
    paths_of "cognito.UserPoolClient" cs = [ userPoolClient obj ] /\
    position "cognito.UserPool" cs = Some 1 /\
    position "cognito.UserPoolClient" cs = Some 2 /\
    props_of "cognito.UserPoolClient" cs
      = [ [ ("userPool", VRef (userPool obj)) ] ] /\
    prop "cognito.UserPool" "selfSignUpEnabled" cs = [ VBool true ].
Proof.
  eexists _, _. split; [apply CognitoConstruct_straight |].
  split_and!; reflexivity.
Qed.

(** X2: The network of the stack: the security group is created in the stack's
    VPC; the function runs in that VPC with that one security group; the
    cache cluster is given the id of the same security group. *)
Theorem MyStack_network_wiring sdk scope id props :
  exists cs,
    straight sdk (MyStack sdk scope id props) cs (scope ++ [id]) /\
    let this := scope ++ [id] in
    let vpc := this ++ ["Vpc"] in
    let securityGroup := this ++ ["SecurityGroup"] in
    paths_of "ec2.Vpc" cs = [ vpc ] /\
    paths_of "ec2.SecurityGroup" cs = [ securityGroup ] /\
    prop "ec2.SecurityGroup" "vpc" cs = [ VRef vpc ] /\
    prop "lambda.Function" "vpc" cs = [ VRef vpc ] /\
    prop "lambda.Function" "securityGroups" cs
      = [ VList [ VRef securityGroup ] ] /\
    prop "elasticache.CfnCacheCluster" "vpcSecurityGroupIds" cs
      = [ VList [ VAttr securityGroup "securityGroupId" ] ].
Proof.
  eexists. split; [apply MyStack_straight | split_and!; reflexivity].
Qed.

(** X3: The environment of the function names the four resources of the stack:
    each variable is an attribute of the one table, user pool, cache
    cluster or log group the stack creates. *)
Theorem MyStack_function_environment sdk scope id props :
  exists cs table pool cluster group,
    straight sdk (MyStack sdk scope id props) cs (scope ++ [id]) /\
    paths_of "dynamodb.Table" cs = [ table ] /\
    paths_of "cognito.UserPool" cs = [ pool ] /\
    paths_of "elasticache.CfnCacheCluster" cs = [ cluster ] /\
    paths_of "logs.LogGroup" cs = [ group ] /\
    prop "lambda.Function" "environment" cs
      = [ VObj [ ("DYNAMODB_TABLE", VAttr table "tableName");
                 ("USER_POOL_ID", VAttr pool "userPoolId");
                 ("CACHE_CLUSTER_ID", VAttr cluster "ref");
                 ("LOG_GROUP_NAME", VAttr group "logGroupName") ] ].
Proof.
  eexists _, _, _, _, _. split; [apply MyStack_straight |].
  split_and!; reflexivity.
Qed.

(** X4: The REST API's default integration is a Lambda integration of the
    function the Lambda wrapper created, built just before the API. *)
Theorem MyStack_api_integrates_function sdk scope id props :
  exists cs fn,
    straight sdk (MyStack sdk scope id props) cs (scope ++ [id]) /\
    paths_of "lambda.Function" cs = [ fn ] /\
    prop "apigateway.RestApi" "defaultIntegration" cs
      = [ VNew "apigateway.LambdaIntegration" [ VRef fn ] ] /\
    In (NewObject "apigateway.LambdaIntegration" [ VRef fn ]) cs /\
    position "lambda.Function" cs = Some 14 /\
    position "apigateway.RestApi" cs = Some 19.
Proof.
  eexists _, _. split; [apply MyStack_straight |].
  split_and!; try reflexivity. vm_compute. tauto.
Qed.

(** ** Order of creation *)

Ltac known_paths :=
  unfold calls_of; cbn; split_and!;
  first [ exact I | intros ? ?; simpl in *; tauto ].

(** X5: A construct is never used before it exists: every scope, target and
    construct reference that [WebAppStack] hands to the SDK is the scope it
    was given, a construct named in the stack properties, or a construct
    created by an earlier call of the same constructor. *)
Theorem WebAppStack_creates_before_use sdk scope id props :
  exists cs,
    straight sdk (WebAppStack sdk scope id props) cs (scope ++ [id]) /\
    well_ordered
      (scope :: match props with Some o => props_refs o | None => [] end) cs.
Proof.
  eexists. split; [apply WebAppStack_straight |].
  known_paths.
Qed.

(** X6: The same for [MyStack], through all six wrappers: the VPC exists before
    the security group, both before the cache cluster and the function, the
    four resources named in the function's environment before the function,
    the function before its policy and before the REST API. *)
Theorem MyStack_creates_before_use sdk scope id props :
  exists cs,
    straight sdk (MyStack sdk scope id props) cs (scope ++ [id]) /\
    well_ordered
      (scope :: match props with Some o => props_refs o | None => [] end) cs.
Proof.
  eexists. split; [apply MyStack_straight |].
  known_paths.
Qed.

(** X7: The GitAuthEngine entry point starts from nothing: the app is created
    first, the stack in it, and [synth] is called on the app last. *)
Theorem GitAuthEngine_main_creates_before_use sdk :
  exists cs,
    straight sdk (GitAuthEngine_main sdk) cs tt /\
    well_ordered [] cs /\
    last cs = Some (MethodCall [] "synth" []).
Proof.
  eexists. split; [apply GitAuthEngine_main_straight |].
  split; [| reflexivity]. known_paths.
Qed.

(** The order matters to [well_ordered]: an origin over a bucket that no
    earlier call created is rejected. *)
Lemma origin_before_bucket_not_well_ordered :
  ~ well_ordered [ ["CdkStack"] ]
      [ NewObject "cloudfront.S3Origin" [ VRef ["CdkStack"; "WebAppS3"] ];
        NewConstruct "s3.Bucket" ["CdkStack"] "WebAppS3" [] ].
Proof.
  intros [Hincl _]. specialize (Hincl ["CdkStack"; "WebAppS3"]).
  simpl in Hincl. destruct Hincl as [Heq | []]; [by left | discriminate Heq].
Qed.

(** ** The construct tree *)

Lemma is_prefix_app (p q : Path) : is_prefix p (p ++ q) = true.
Proof.
  induction p as [|x p IH]; simpl; [reflexivity |].
  rewrite String.eqb_refl. exact IH.
Qed.

Lemma NoDup_map_app (p : Path) (l : list Path) :
  NoDup l -> NoDup (map (app p) l).
Proof.
  induction 1 as [|q l Hq Hl IH]; simpl; constructor; [| exact IH].
  intros Hin. apply Hq. apply list_elem_of_In in Hin. apply in_map_iff in Hin.
  destruct Hin as (q' & Heq & Hq'). apply app_inv_head in Heq. subst q'.
  by apply list_elem_of_In.
Qed.

Lemma under_map_app (this : Path) (l : list Path) p :
  In p (map (app this) l) -> is_prefix this p = true.
Proof.
  intros Hp. apply in_map_iff in Hp. destruct Hp as (q & <- & _).
  apply is_prefix_app.
Qed.

(** X8: Whatever scope and id it is given, [WebAppStack] creates four
    constructs: itself, and the bucket, the distribution and the output as
    its children.  Their paths are pairwise distinct, and all lie in the
    subtree of the stack. *)
Theorem WebAppStack_construct_tree sdk scope id props :
  exists cs,
    straight sdk (WebAppStack sdk scope id props) cs (scope ++ [id]) /\
    let this := scope ++ [id] in
    created cs
      = map (app this)
          [ []; ["WebAppS3"]; ["ContentDelivery"]; ["WebsiteURL"] ] /\
    NoDup (created cs) /\
    (forall p, In p (created cs) -> is_prefix this p = true).
Proof.
  eexists. split; [apply WebAppStack_straight |]. cbv zeta.
  assert (Htree : created (calls_of (fun sdk => WebAppStack sdk scope id props))
                  = map (app (scope ++ [id]))
                      [ []; ["WebAppS3"]; ["ContentDelivery"]; ["WebsiteURL"] ])
    by (unfold calls_of; cbn; rewrite ?app_nil_r; reflexivity).
  rewrite Htree. split_and!.
  - reflexivity.
  - apply NoDup_map_app. apply (bool_decide_unpack _). vm_compute. reflexivity.
  - apply under_map_app.
Qed.

(** X9: Whatever scope and id it is given, [MyStack] creates sixteen
    constructs: itself, the VPC and the security group as its children, the
    six wrappers as its children, and each resource as a child of its
    wrapper.  Their paths are pairwise distinct, so no construct id is used
    twice in one scope, and all lie in the subtree of the stack. *)
Theorem MyStack_construct_tree sdk scope id props :
  exists cs,
    straight sdk (MyStack sdk scope id props) cs (scope ++ [id]) /\
    let this := scope ++ [id] in
    created cs
      = map (app this)
          [ []; ["Vpc"]; ["SecurityGroup"];
            ["DynamoDBConstruct"]; ["DynamoDBConstruct"; "MyTable"];
            ["CognitoConstruct"]; ["CognitoConstruct"; "MyUserPool"];
            ["CognitoConstruct"; "MyUserPoolClient"];
            ["ElastiCacheConstruct"];
            ["ElastiCacheConstruct"; "MyCacheCluster"];
            ["CloudWatchConstruct"]; ["CloudWatchConstruct"; "MyLogGroup"];
            ["AuthLambdaConstruct"];
            ["AuthLambdaConstruct"; "AuthLambdaFunction"];
            ["ApiGatewayConstruct"];
            ["ApiGatewayConstruct"; "MyApiGatewayName"] ] /\
    NoDup (created cs) /\
    (forall p, In p (created cs) -> is_prefix this p = true).
Proof.
  eexists. split; [apply MyStack_straight |]. cbv zeta.
  match goal with
  | |- ?l = ?r /\ _ => assert (Htree : l = r)
  end.
  { unfold calls_of; cbn. rewrite <- ?app_assoc, ?app_nil_r. reflexivity. }
  rewrite Htree. split_and!.
  - reflexivity.
  - apply NoDup_map_app. apply (bool_decide_unpack _). vm_compute. reflexivity.
  - apply under_map_app.
Qed.

(** ** What the properties reach *)

(** X11: The stack properties reach the [super] call only: the rest of what
    either stack constructor does is the same for all properties. *)
Theorem stack_props_reach_super_only scope id :
  (exists rest, forall sdk props,
     straight sdk (WebAppStack sdk scope id props)
       (Super "cdk.Stack" scope id props :: rest) (scope ++ [id])) /\
  (exists rest, forall sdk props,
     straight sdk (MyStack sdk scope id props)
       (Super "cdk.Stack" scope id props :: rest) (scope ++ [id])).
Proof.
  split.
  - exists (tail (calls_of (fun sdk => WebAppStack sdk scope id None))).
    intros sdk props. apply WebAppStack_straight.
  - exists (tail (calls_of (fun sdk => MyStack sdk scope id None))).
    intros sdk props. apply MyStack_straight.
Qed.

(** X12: The ElastiCache wrapper never reads the [vpc] it is given: two property
    records that agree on the security group and the cluster id make it
    behave the same, whatever the SDK does. *)
Theorem ElastiCacheConstruct_ignores_vpc sdk scope id props props' w :
  ElastiCacheConstructProps.securityGroup props
    = ElastiCacheConstructProps.securityGroup props' ->
  ElastiCacheConstructProps.cacheClusterId props
    = ElastiCacheConstructProps.cacheClusterId props' ->
  ElastiCacheConstruct sdk scope id props w
    = ElastiCacheConstruct sdk scope id props' w.
Proof.
  destruct props, props'; simpl. intros -> ->. reflexivity.
Qed.

Lemma ElastiCacheConstruct_ignores_vpc_witness :
  ElastiCacheConstruct refuse_bucket ["MyStack"] "ElastiCacheConstruct"
    {| ElastiCacheConstructProps.vpc := ["MyStack"; "Vpc"];
       ElastiCacheConstructProps.securityGroup := ["MyStack"; "SecurityGroup"];
       ElastiCacheConstructProps.cacheClusterId := "MyCacheCluster" |} [NewApp]
  = ElastiCacheConstruct refuse_bucket ["MyStack"] "ElastiCacheConstruct"
      {| ElastiCacheConstructProps.vpc := ["Elsewhere"];
         ElastiCacheConstructProps.securityGroup := ["MyStack"; "SecurityGroup"];
         ElastiCacheConstructProps.cacheClusterId := "MyCacheCluster" |} [NewApp].
Proof.
  apply (ElastiCacheConstruct_ignores_vpc refuse_bucket); reflexivity.
Defined.

(** X13: The description of the REST API is always a string: the one given,
    an empty one included, and the empty string when none is given. *)
Theorem ApiGatewayConstruct_description_default sdk scope id props :
  exists cs obj,
    straight sdk (ApiGatewayConstruct sdk scope id props) cs obj /\
    prop "apigateway.RestApi" "description" cs
      = [ VStr (default "" (ApiGatewayConstructProps.description props)) ].
Proof.
  eexists _, _. split; [apply ApiGatewayConstruct_straight |].
  unfold calls_of; cbn.
  by destruct (ApiGatewayConstructProps.description props).
Qed.

(** ** Success and failure of a run *)

Lemma accepted_run_script sdk {A} (cs : list SdkCall) (a : A) (w : World) :
  accepted sdk w cs -> run_script sdk cs a w = Ok a (w ++ cs).
Proof.
  revert w. induction cs as [|c cs IH]; intros w; simpl.
  - intros _. by rewrite app_nil_r.
  - intros [Hc Hcs]. rewrite Hc, (IH _ Hcs), <- app_assoc. reflexivity.
Qed.

Lemma straight_returns_iff sdk {A} (m : M A) cs (a : A) (w : World) :
  straight sdk m cs a ->
  ((exists r w', m w = Ok r w') <-> accepted sdk w cs) /\
  (forall r w', m w = Ok r w' -> r = a /\ w' = w ++ cs).
Proof.
  intros Hm. split; [split |].
  - intros (r & w' & Hrun).
    by destruct (straight_Ok sdk m cs a w r w' Hm Hrun) as (_ & _ & Hacc).
  - intros Hacc. exists a, (w ++ cs). rewrite Hm.
    by apply accepted_run_script.
  - intros r w' Hrun.
    by destruct (straight_Ok sdk m cs a w r w' Hm Hrun) as (-> & -> & _).
Qed.

(** X14: A stack constructor returns exactly when the SDK accepts every one of
    its calls, five for [WebAppStack] and twenty for [MyStack], each in the
    world left by those before it; it then returns its own path and has
    logged all of them. *)
Theorem stacks_return_iff_all_accepted sdk scope id props w :
  (exists cs,
     length cs = 5 /\
     ((exists r w', WebAppStack sdk scope id props w = Ok r w')
      <-> accepted sdk w cs) /\
     (forall r w', WebAppStack sdk scope id props w = Ok r w' ->
                   r = scope ++ [id] /\ w' = w ++ cs)) /\
  (exists cs,
     length cs = 20 /\
     ((exists r w', MyStack sdk scope id props w = Ok r w')
      <-> accepted sdk w cs) /\
     (forall r w', MyStack sdk scope id props w = Ok r w' ->
                   r = scope ++ [id] /\ w' = w ++ cs)).
Proof.
  split; eexists; (split; [| eapply straight_returns_iff]);
    [ | apply WebAppStack_straight | | apply MyStack_straight ];
    reflexivity.
Qed.

Lemma method_calls_In target method args (cs : list SdkCall) :
  In (MethodCall target method args) cs ->
  In (target, args) (method_calls method cs).
Proof.
  intros Hin. unfold method_calls. apply in_flat_map.
  exists (MethodCall target method args). split; [exact Hin |].
  rewrite String.eqb_refl. by left.
Qed.

(** X15: The GitAuthEngine entry point reaches [app.synth()] only after the app
    was created and the stack constructor has returned: when the SDK
    refuses any call before, synthesis is never attempted. *)
Theorem GitAuthEngine_main_synth_after_stack sdk :
  In (MethodCall [] "synth" []) (final_world (GitAuthEngine_main sdk [])) ->
  sdk NewApp [] = None /\
  exists w, MyStack sdk [] "MyStack" None [NewApp] = Ok ["MyStack"] w.
Proof.
  unfold GitAuthEngine_main, new_App, method_call, bind, call, ret at 1.
  simpl. destruct (sdk NewApp []) as [e|] eqn:Happ; simpl.
  - intros [Hin | []]. discriminate Hin.
  - intros Hin. split; [reflexivity |].
    pose proof (MyStack_straight sdk [] "MyStack" None) as Hst.
    destruct (MyStack sdk [] "MyStack" None [NewApp]) as [r w|e w] eqn:Hrun.
    + destruct (straight_Ok sdk _ _ _ _ _ _ Hst Hrun) as (-> & _ & _). eauto.
    + exfalso. simpl in Hin.
      destruct (straight_Throw sdk _ _ _ _ _ _ Hst Hrun)
        as (cs1 & c & cs2 & Hcs & -> & _).
      assert (Hscript : In (MethodCall [] "synth" [])
                          (calls_of (fun sdk => MyStack sdk [] "MyStack" None))).
      { rewrite Hcs. simpl in Hin. destruct Hin as [Hin | Hin];
          [discriminate Hin |].
        apply in_app_or in Hin. apply in_or_app.
        destruct Hin as [Hin | [Hin | []]]; [by left | right; by left]. }
      apply method_calls_In in Hscript. vm_compute in Hscript. exact Hscript.
Qed.

Lemma GitAuthEngine_main_synth_after_stack_witness :
  permissive NewApp [] = None /\
  exists w, MyStack permissive [] "MyStack" None [NewApp] = Ok ["MyStack"] w.
Proof.
  apply (GitAuthEngine_main_synth_after_stack permissive).
  vm_compute. tauto.
Defined.

(** ** The two importers, with the import repaired *)

(** X18: Against a module that exports the stack class under the name the bin
    script imports, the script is the creation of the app followed by the
    constructor of [WebAppStack] in it, with id 'CdkStack' and empty
    properties: one stack, whose path it returns. *)
Theorem SplitItUI_cdk_bin_repaired sdk (lib : gmap string StackClass) :
  lib !! "cdk_Stack" = Some (WebAppStack sdk) ->
  exists cs,
    straight sdk (SplitItUI_cdk_bin sdk lib) (NewApp :: cs) ["CdkStack"] /\
    straight sdk (WebAppStack sdk [] "CdkStack" (Some [])) cs ["CdkStack"] /\
    supers_of "cdk.Stack" cs = [ ["CdkStack"] ].
Proof.
  intros Hlib.
  exists (calls_of (fun sdk => WebAppStack sdk [] "CdkStack" (Some []))).
  split_and!.
  - unfold SplitItUI_cdk_bin, import_named. rewrite Hlib. unfold construct.
    straight_prims. straight_steps.
  - apply WebAppStack_straight.
  - reflexivity.
Qed.

Lemma SplitItUI_cdk_bin_repaired_witness :
  exists cs,
    straight permissive
      (SplitItUI_cdk_bin permissive {[ "cdk_Stack" := WebAppStack permissive ]})
      (NewApp :: cs) ["CdkStack"] /\
    straight permissive (WebAppStack permissive [] "CdkStack" (Some [])) cs
      ["CdkStack"] /\
    supers_of "cdk.Stack" cs = [ ["CdkStack"] ].
Proof.
  apply (SplitItUI_cdk_bin_repaired permissive).
  apply lookup_singleton_eq.
Defined.

Lemma WebAppStack_fails_test_assertions sdk emit scope id props (w : World)
    this w' :
  (forall cls,
     In cls [ "s3.Bucket"; "cloudfront.Distribution"; "cdk.CfnOutput" ] ->
     emits_no_queue_or_topic emit cls) ->
  (forall c, In c w -> under (scope ++ [id]) c = false) ->
  WebAppStack sdk scope id props w = Ok this w' ->
  test_assertions (Template_fromStack emit this w') = false.
Proof.
  intros Hemit Hfresh Hrun.
  destruct (straight_Ok sdk _ _ _ _ _ _ (WebAppStack_straight sdk scope id props)
              Hrun) as (-> & -> & _).
  unfold test_assertions, hasResourceProperties.
  rewrite Template_fromStack_none; [reflexivity |].
  intros c Hc Hunder r Hr. apply in_app_or in Hc. destruct Hc as [Hc | Hc].
  - rewrite (Hfresh c Hc) in Hunder. discriminate.
  - unfold calls_of in Hc; simpl in Hc.
    destruct Hc as [<- | [<- | [<- | [<- | [<- | []]]]]];
      try discriminate Hunder;
      (eapply Hemit; [| exact Hr]); simpl; tauto.
Qed.

(** X19: Repairing the import does not make the test pass: against a module
    whose default export is the stack class, and under any SDK whose
    synthesis emits no queue and no topic for a bucket, a distribution or an
    output, the test either throws the SDK's error or finds its assertions
    false. *)
Theorem test_repaired_cannot_pass sdk emit (lib : gmap string StackClass) w :
  lib !! "default" = Some (WebAppStack sdk) ->
  (forall cls,
     In cls [ "s3.Bucket"; "cloudfront.Distribution"; "cdk.CfnOutput" ] ->
     emits_no_queue_or_topic emit cls) ->
  (forall c, In c w -> under ["MyTestStack"] c = false) ->
  match test_SQS_Queue_and_SNS_Topic_Created sdk emit lib w with
  | Ok passed _ => passed = false
  | Throw e _ => exists c w0, sdk c w0 = Some e
  end.
Proof.
  intros Hlib Hemit Hfresh.
  unfold test_SQS_Queue_and_SNS_Topic_Created, test_stack, import_default.
  rewrite Hlib. unfold construct, new_App, bind, call, ret at 1.
  destruct (sdk NewApp w) as [e|] eqn:Happ; [eauto |].
  destruct (WebAppStack sdk [] "MyTestStack" None (w ++ [NewApp]))
    as [this w'|e w'] eqn:Hrun.
  - unfold ret. eapply WebAppStack_fails_test_assertions; [exact Hemit | | exact Hrun].
    intros c Hc. apply in_app_or in Hc.
    destruct Hc as [Hc | [<- | []]]; [by apply Hfresh | reflexivity].
  - destruct (straight_Throw sdk _ _ _ _ _ _
                (WebAppStack_straight sdk [] "MyTestStack" None) Hrun)
      as (cs1 & c & _ & _ & _ & _ & Hc). eauto.
Qed.

Lemma test_repaired_cannot_pass_witness :
  match test_SQS_Queue_and_SNS_Topic_Created permissive documented_emit
          (<[ "default" := WebAppStack permissive ]>
             (SplitItUI_cdk_stack permissive)) [] with
  | Ok passed _ => passed = false
  | Throw e _ => exists c w0, permissive c w0 = Some e
  end.
Proof.
  apply (test_repaired_cannot_pass permissive documented_emit).
  - apply lookup_insert_eq.
  - intros cls Hcls scope id props r Hr.
    destruct Hcls as [<- | [<- | [<- | []]]]; simpl in Hr;
      repeat (destruct Hr as [<- | Hr]; [split; discriminate |]);
      destruct Hr.
  - intros c [].
Defined.

(** ** What the wrappers hand on, and what they fix *)

(** X20: The DynamoDB, ElastiCache, CloudWatch and API gateway wrappers return
    the handle of the one resource they created, a child of the wrapper
    itself; the first three name that child after the resource: its
    construct id is the table name, the cluster name, the log group name. *)
Theorem wrappers_return_what_they_create sdk scope id :
  (forall props, exists cs obj,
     straight sdk (DynamoDBConstruct sdk scope id props) cs obj /\
     paths_of "dynamodb.Table" cs = [ table obj ] /\
     scopes_of "dynamodb.Table" cs = [ dynamoDb_this obj ] /\
     map VStr (ids_of "dynamodb.Table" cs)
       = prop "dynamodb.Table" "tableName" cs) /\
  (forall props, exists cs obj,
     straight sdk (ElastiCacheConstruct sdk scope id props) cs obj /\
     paths_of "elasticache.CfnCacheCluster" cs = [ cacheCluster obj ] /\
     scopes_of "elasticache.CfnCacheCluster" cs = [ elastiCache_this obj ] /\
     map VStr (ids_of "elasticache.CfnCacheCluster" cs)
       = prop "elasticache.CfnCacheCluster" "clusterName" cs) /\
  (forall props, exists cs obj,
     straight sdk (CloudWatchConstruct sdk scope id props) cs obj /\
     paths_of "logs.LogGroup" cs = [ logGroup obj ] /\
     scopes_of "logs.LogGroup" cs = [ cloudWatch_this obj ] /\
     map VStr (ids_of "logs.LogGroup" cs)
       = prop "logs.LogGroup" "logGroupName" cs) /\
  (forall props, exists cs obj,
     straight sdk (ApiGatewayConstruct sdk scope id props) cs obj /\
     paths_of "apigateway.RestApi" cs = [ apiGateway obj ] /\
     scopes_of "apigateway.RestApi" cs = [ apiGateway_this obj ] /\
     ids_of "apigateway.RestApi" cs
       = [ ApiGatewayConstructProps.apigatewayName props ] /\
     prop "apigateway.RestApi" "restApiName" cs
       = [ VStr (ApiGatewayConstructProps.restApiName props) ]).
Proof.
  split_and!; intros props; eexists _, _;
    (split;
     [ first [ apply DynamoDBConstruct_straight
             | apply ElastiCacheConstruct_straight
             | apply CloudWatchConstruct_straight
             | apply ApiGatewayConstruct_straight ]
     | split_and!; reflexivity ]).
Qed.

(** X21: The Lambda wrapper hands its handler, VPC, security groups and
    environment on unchanged, loads the code from the asset at its code
    path, and fixes the runtime to Python 3.9 whatever it is given. *)
Theorem AuthLambdaConstruct_function_configuration sdk scope id props :
  exists cs obj,
    straight sdk (AuthLambdaConstruct sdk scope id props) cs obj /\
    ids_of "lambda.Function" cs
      = [ AuthLambdaConstructProps.functionName props ] /\
    scopes_of "lambda.Function" cs = [ authLambda_this obj ] /\
    prop "lambda.Function" "runtime" cs
      = [ VEnum "lambda.Runtime" "PYTHON_3_9" ] /\
    prop "lambda.Function" "handler" cs
      = [ VStr (AuthLambdaConstructProps.handler props) ] /\
    prop "lambda.Function" "code" cs
      = [ VStatic "lambda.Code.fromAsset"
            [ VStr (AuthLambdaConstructProps.codePath props) ] ] /\
    prop "lambda.Function" "vpc" cs
      = [ VRef (AuthLambdaConstructProps.vpc props) ] /\
    prop "lambda.Function" "securityGroups" cs
      = [ VList (map VRef (AuthLambdaConstructProps.securityGroups props)) ] /\
    prop "lambda.Function" "environment" cs
      = [ VObj (AuthLambdaConstructProps.environment props) ].
Proof.
  eexists _, _. split; [apply AuthLambdaConstruct_straight |].
  split_and!; reflexivity.
Qed.

(** X22: Whatever it is given, the API gateway wrapper leaves every method
    without authorization, asks for four request parameters, declares the
    one response 200, and deploys with INFO logging, data tracing and
    metrics on, a CloudWatch role, and warnings made fatal. *)
Theorem ApiGatewayConstruct_methods_and_deployment sdk scope id props :
  exists cs obj,
    straight sdk (ApiGatewayConstruct sdk scope id props) cs obj /\
    let method k := subprop "apigateway.RestApi" "defaultMethodOptions" k cs in
    let deploy k := subprop "apigateway.RestApi" "deployOptions" k cs in
    method "authorizationType"
      = [ VEnum "apigateway.AuthorizationType" "NONE" ] /\
    method "requestParameters"
      = [ VObj [ ("method.request.header.Authorization", VBool true);
                 ("method.request.header.Content-Type", VBool true);
                 ("method.request.header.Custom-Header", VBool true);
                 ("method.request.querystring.myParam", VBool true) ] ] /\
    method "methodResponses"
      = [ VList [ VObj [ ("statusCode", VStr "200") ] ] ] /\
    deploy "loggingLevel"
      = [ VEnum "apigateway.MethodLoggingLevel" "INFO" ] /\
    deploy "dataTraceEnabled" = [ VBool true ] /\
    deploy "metricsEnabled" = [ VBool true ] /\
    prop "apigateway.RestApi" "cloudWatchRole" cs = [ VBool true ] /\
    prop "apigateway.RestApi" "failOnWarnings" cs = [ VBool true ] /\
    prop "apigateway.RestApi" "retainDeployments" cs = [ VBool false ] /\
    subprop "apigateway.RestApi" "defaultCorsPreflightOptions"
      "allowHeaders" cs
      = [ VList [ VStr "Content-Type"; VStr "X-Amz-Date";
                  VStr "Authorization"; VStr "X-Api-Key" ] ].
Proof.
  eexists _, _. split; [apply ApiGatewayConstruct_straight |].
  split_and!; reflexivity.
Qed.

(** ** The CORS policy of the synthesized API *)



(** The policy read off a template tells configurations apart: an API that
    allows one origin does not permit requests from another, and one that
    does not allow credentials permits none. *)
Lemma one_origin_does_not_permit_another :
  permits_credentialed_requests_from
    (documented_cors_emit
       (NewConstruct "apigateway.RestApi" ["MyStack"] "Api"
          [ ("defaultCorsPreflightOptions", VObj
               [ ("allowCredentials", VBool true);
                 ("allowOrigins", VList [ VStr "https://a.example" ]) ]) ]))
    "https://b.example" = false.
Proof. reflexivity. Qed.

Lemma no_credentials_permits_none origin :
  permits_credentialed_requests_from
    (documented_cors_emit
       (NewConstruct "apigateway.RestApi" ["MyStack"] "Api"
          [ ("defaultCorsPreflightOptions", VObj
               [ ("allowCredentials", VBool false);
                 ("allowOrigins", VList [ VStr "*" ]) ]) ]))
    origin = false.
Proof. reflexivity. Qed.
